(** * OpenWhispr fast-paste helpers: a shallow embedding

    Two C programs are embedded here:
    - [resources/linux-fast-paste.c]   (module [Linux]),
    - [resources/windows-fast-paste.c] (module [Windows]).

    Pure functions ([is_terminal], [IsTerminalClass], the argument loop)
    are Rocq functions.  Code that talks to the display server, the kernel
    or the Win32 API runs in a small writer monad: every external call is
    appended to a trace together with the answer it received, and the
    answers come from an environment record, one field per external
    function.  A run of [main] is then a pair (exit status, trace). *)

From Stdlib Require Import List String Ascii ZArith NArith Bool Lia DecimalString.
Import ListNotations.

Local Open Scope string_scope.
Local Open Scope list_scope.
Local Open Scope Z_scope.

(** ** C library string functions (C locale)

    Neither program calls [setlocale], so the C locale is in force and
    only the 26 letters A..Z have a lower-case counterpart. *)

Module CString.

Definition tolower (c : ascii) : ascii :=
  let n := N_of_ascii c in
  if ((65 <=? n) && (n <=? 90))%N then ascii_of_N (n + 32) else c.

Fixpoint lower (s : string) : string :=
  match s with
  | EmptyString => EmptyString
  | String c s' => String (tolower c) (lower s')
  end.

(** [needle] is, up to letter case, an initial segment of [hay]. *)
Fixpoint prefix_ci (needle hay : string) : bool :=
  match needle with
  | EmptyString => true
  | String a needle' =>
      match hay with
      | EmptyString => false
      | String b hay' =>
          (tolower a =? tolower b)%char && prefix_ci needle' hay'
      end
  end.

(** [strcasestr(hay, needle)]: the suffix of [hay] that starts at the
    first case-insensitive occurrence of [needle], [None] for NULL. *)
Fixpoint strcasestr (hay needle : string) : option string :=
  if prefix_ci needle hay then Some hay
  else match hay with
       | EmptyString => None
       | String _ hay' => strcasestr hay' needle
       end.

(** [_stricmp(a, b)]: compares the lower-cased strings; the C runtime
    documents only the sign of the result (negative, zero, positive). *)
Fixpoint _stricmp (a b : string) : Z :=
  match a, b with
  | EmptyString, EmptyString => 0
  | EmptyString, String _ _ => -1
  | String _ _, EmptyString => 1
  | String ca a', String cb b' =>
      if (tolower ca =? tolower cb)%char then _stricmp a' b'
      else if (N_of_ascii (tolower ca) <? N_of_ascii (tolower cb))%N then -1
      else 1
  end.

(** [strcmp(a, b) == 0]. *)
Definition streq (a b : string) : bool := (a =? b)%string.

(** The words of the specification: [s] contains [t] as a substring when
    letter case is ignored. *)
Definition contains_ci (s t : string) : Prop :=
  exists pre post, lower s = (pre ++ lower t ++ post)%string.

(** The words of the specification: equal when letter case is ignored. *)
Definition equal_ci (s t : string) : Prop := lower s = lower t.

End CString.

(** ** [strtoul(s, NULL, 0)]

    The ISO C conversion with automatic base: white space is skipped, one
    optional sign is read, a [0x]/[0X] prefix followed by a hexadecimal
    digit selects base 16, a leading [0] base 8, anything else base 10.
    The longest run of digits of that base is converted; no digit at all
    gives 0, a value above [ULONG_MAX] gives [ULONG_MAX], and a minus sign
    negates in [unsigned long] arithmetic (LP64: 64 bits). *)

Module Stdlib_h.

Definition ULONG_MAX : Z := 2 ^ 64 - 1.

Definition isspace (c : ascii) : bool :=
  let n := N_of_ascii c in ((9 <=? n) && (n <=? 13) || (n =? 32))%N.

Definition digit_value (c : ascii) : option Z :=
  let n := Z.of_N (N_of_ascii c) in
  if (48 <=? n) && (n <=? 57) then Some (n - 48)
  else if (97 <=? n) && (n <=? 122) then Some (n - 97 + 10)
  else if (65 <=? n) && (n <=? 90) then Some (n - 65 + 10)
  else None.

Definition is_digit_of (base : Z) (c : ascii) : bool :=
  match digit_value c with
  | Some d => d <? base
  | None => false
  end.

Fixpoint skip_spaces (s : string) : string :=
  match s with
  | String c s' => if isspace c then skip_spaces s' else s
  | EmptyString => s
  end.

(** Value of the longest run of base-[base] digits at the head of [s],
    starting from the accumulator [acc]. *)
Fixpoint convert (base : Z) (s : string) (acc : Z) : Z :=
  match s with
  | EmptyString => acc
  | String c s' =>
      match digit_value c with
      | Some d => if d <? base then convert base s' (acc * base + d) else acc
      | None => acc
      end
  end.

Definition is_x (c : ascii) : bool := ((c =? "x") || (c =? "X"))%char.

Definition strtoul0 (s : string) : Z :=
  let s1 := skip_spaces s in
  let '(negative, s2) :=
    match s1 with
    | String c r =>
        if (c =? "-")%char then (true, r)
        else if (c =? "+")%char then (false, r)
        else (false, s1)
    | EmptyString => (false, s1)
    end in
  let '(base, s3) :=
    match s2 with
    | String z (String x (String h r)) =>
        if ((z =? "0")%char && is_x x && is_digit_of 16 h)%bool
        then (16, String h r)
        else if (z =? "0")%char then (8, s2) else (10, s2)
    | String z _ => if (z =? "0")%char then (8, s2) else (10, s2)
    | EmptyString => (10, s2)
    end in
  let v := convert base s3 0 in
  if ULONG_MAX <? v then ULONG_MAX
  else if negative then (- v) mod (ULONG_MAX + 1) else v.

End Stdlib_h.

(** ** [printf]-style output

    A call is kept as its format and arguments; [render] gives the text
    for the two conversions the programs use, [%s] and [%lu]. *)

Module Stdio.

Inductive printf_arg : Type :=
| ArgStr (s : string)
| ArgULong (n : Z).

Fixpoint render (fmt : string) (args : list printf_arg) : string :=
  match fmt with
  | EmptyString => EmptyString
  | String c rest =>
      if (c =? "%")%char then
        match rest with
        | String c1 rest1 =>
            if (c1 =? "s")%char then
              match args with
              | ArgStr s :: args' => (s ++ render rest1 args')%string
              | _ => render rest1 (tl args)
              end
            else
              match rest1 with
              | String c2 rest2 =>
                  if ((c1 =? "l") && (c2 =? "u"))%char then
                    match args with
                    | ArgULong n :: args' =>
                        (NilZero.string_of_uint (N.to_uint (Z.to_N n))
                           ++ render rest2 args')%string
                    | _ => render rest2 (tl args)
                    end
                  else String c (String c1 (render rest1 args))
              | EmptyString => String c (String c1 EmptyString)
              end
        | EmptyString => String c EmptyString
        end
      else String c (render rest args)
  end.

End Stdio.

(** ** The trace monad

    A computation returns its value and the list of external calls it
    made, oldest first. *)

Module Trace.

Definition IO (E A : Type) : Type := (A * list E)%type.

Definition ret {E A : Type} (a : A) : IO E A := (a, []).

Definition bind {E A B : Type} (m : IO E A) (k : A -> IO E B) : IO E B :=
  let (a, t1) := m in
  let (b, t2) := k a in
  (b, t1 ++ t2).

(** An external call [e] that answered [a]. *)
Definition call {E A : Type} (e : E) (a : A) : IO E A := (a, [e]).

Definition result {E A : Type} (m : IO E A) : A := fst m.
Definition trace {E A : Type} (m : IO E A) : list E := snd m.

End Trace.

Declare Scope io_scope.
Delimit Scope io_scope with io.
Notation "x <- m ;; k" := (Trace.bind m (fun x => k))
  (at level 61, m at next level, right associativity) : io_scope.
Notation "m ;; k" := (Trace.bind m (fun _ => k))
  (at level 61, right associativity) : io_scope.

Definition nl : string := String (ascii_of_N 10) EmptyString.

(** ** Key sequences

    The specification's KeySequence and its invariant, stated once for
    the three backends: a sequence of presses and releases of the logical
    keys Ctrl, Shift and V.  Each backend encodes a logical key in its own
    way (an X keycode looked up at run time, a Linux input key code, a
    Windows virtual-key code); the encodings are defined with the
    programs below. *)

Module KeySequence.

Inductive Key : Type := Ctrl | Shift | V.

Inductive Action : Type := Press | Release.

Definition KeyEvent : Type := (Key * Action)%type.

Definition Key_eqb (a b : Key) : bool :=
  match a, b with
  | Ctrl, Ctrl | Shift, Shift | V, V => true
  | _, _ => false
  end.

Definition Action_eqb (a b : Action) : bool :=
  match a, b with
  | Press, Press | Release, Release => true
  | _, _ => false
  end.

Definition KeyEvent_eqb (a b : KeyEvent) : bool :=
  Key_eqb (fst a) (fst b) && Action_eqb (snd a) (snd b).

Definition count (e : KeyEvent) (ks : list KeyEvent) : nat :=
  List.length (filter (KeyEvent_eqb e) ks).

(** As many presses as releases, for every key. *)
Definition balanced (ks : list KeyEvent) : Prop :=
  forall k, count (k, Press) ks = count (k, Release) ks.

(** Every press is followed, strictly later, by a release of that key. *)
Definition released_later (ks : list KeyEvent) : Prop :=
  forall i k, nth_error ks i = Some (k, Press) ->
    exists j, (i < j)%nat /\ nth_error ks j = Some (k, Release).

(** Every release is preceded, strictly earlier, by a press of that key. *)
Definition pressed_before (ks : list KeyEvent) : Prop :=
  forall j k, nth_error ks j = Some (k, Release) ->
    exists i, (i < j)%nat /\ nth_error ks i = Some (k, Press).

(** The modifier [m] is held around V: all its presses come before every
    press of V and all its releases after every release of V. *)
Definition held_around_V (m : Key) (ks : list KeyEvent) : Prop :=
  (forall i j, nth_error ks i = Some (m, Press) ->
               nth_error ks j = Some (V, Press) -> (i < j)%nat) /\
  (forall i j, nth_error ks i = Some (V, Release) ->
               nth_error ks j = Some (m, Release) -> (i < j)%nat).

(** V is never struck without Ctrl. *)
Definition V_needs_Ctrl (ks : list KeyEvent) : Prop :=
  In (V, Press) ks -> In (Ctrl, Press) ks.

Definition well_formed (ks : list KeyEvent) : Prop :=
  balanced ks /\ released_later ks /\ pressed_before ks /\
  V_needs_Ctrl ks /\ held_around_V Ctrl ks /\ held_around_V Shift ks.

(** Stack discipline: a press pushes its key, a release must pop the same
    key; the sequence is properly nested when the stack ends empty. *)
Fixpoint nested (stack : list Key) (ks : list KeyEvent) : bool :=
  match ks with
  | [] => match stack with [] => true | _ => false end
  | (k, Press) :: ks' => nested (k :: stack) ks'
  | (k, Release) :: ks' =>
      match stack with
      | top :: stack' => Key_eqb k top && nested stack' ks'
      | [] => false
      end
  end.

(** A complete paste stroke: paired, nested, V is struck, and Shift takes
    part exactly in the terminal variant. *)
Definition paste_stroke (use_shift : bool) (ks : list KeyEvent) : Prop :=
  well_formed ks /\ nested [] ks = true /\ In (V, Press) ks /\
  (In (Shift, Press) ks <-> use_shift = true).

(** A run either strikes nothing or a complete paste stroke. *)
Definition nothing_or_stroke (ks : list KeyEvent) : Prop :=
  ks = [] \/ exists use_shift, paste_stroke use_shift ks.

End KeySequence.

(** ** Control-flow steps

    The steps of the specification's control flow that leave a mark in a
    trace.  Each program says which of its external calls belongs to which
    step. *)

Module ControlFlow.

Inductive step : Type := Activate | Resolve | QueryClass | Synthesize.

Definition rank (s : step) : nat :=
  match s with
  | Activate => 0
  | Resolve => 1
  | QueryClass => 2
  | Synthesize => 3
  end.

Section Steps.

Context {call : Type} (step_of : call -> option step).

Definition steps (t : list call) : list step :=
  flat_map (fun c => match step_of c with Some s => [s] | None => [] end) t.

Definition is_synthesis (c : call) : bool :=
  match step_of c with
  | Some Synthesize => true
  | _ => false
  end.

(** The part of a trace that precedes its first synthesis call. *)
Fixpoint before_synthesis (t : list call) : list call :=
  match t with
  | [] => []
  | c :: t' => if is_synthesis c then [] else c :: before_synthesis t'
  end.

Definition synthesizes (t : list call) : Prop := In Synthesize (steps t).

(** Step [s] is taken, and taken before any input is synthesized. *)
Definition precedes_synthesis (s : step) (t : list call) : Prop :=
  In s (steps (before_synthesis t)).

Definition occurs (s : step) (t : list call) : Prop := In s (steps t).

End Steps.

(** The steps come in the order activate, resolve, query class,
    synthesize. *)
Fixpoint in_order (l : list step) : bool :=
  match l with
  | [] => true
  | a :: l' =>
      match l' with
      | [] => true
      | b :: _ => (rank a <=? rank b)%nat && in_order l'
      end
  end.

End ControlFlow.

(** ** The Linux helper, [resources/linux-fast-paste.c] *)

Module Linux.

Import CString Stdlib_h Stdio Trace.
Local Open Scope io_scope.

(** *** Constants of the X11 and Linux input headers *)

Definition XNone : Z := 0.                 (* None *)
Definition Success : Z := 0.
Definition XA_WINDOW : Z := 33.
Definition ClientMessage : Z := 33.
Definition SubstructureNotifyMask : Z := Z.shiftl 1 19.
Definition SubstructureRedirectMask : Z := Z.shiftl 1 20.
Definition RevertToParent : Z := 2.
Definition CurrentTime : Z := 0.
Definition XK_Control_L : Z := 0xffe3.
Definition XK_Shift_L : Z := 0xffe1.
Definition XK_v : Z := 0x0076.

Definition EV_SYN : Z := 0.
Definition EV_KEY : Z := 1.
Definition SYN_REPORT : Z := 0.
Definition KEY_LEFTCTRL : Z := 29.
Definition KEY_LEFTSHIFT : Z := 42.
Definition KEY_V : Z := 47.
Definition BUS_USB : Z := 3.
Definition O_WRONLY : Z := 1.
Definition O_NONBLOCK : Z := 0x800.

(** *** Data passed to and from the external calls *)

Record XClientMessageEvent : Type := {
  xclient_type : Z;
  xclient_window : Z;
  xclient_message_type : Z;
  xclient_format : Z;
  xclient_data_l : list Z
}.

Record XClassHint : Type := {
  res_name : option string;
  res_class : option string
}.

(** What [XGetWindowProperty] hands back: its status, the [data] pointer
    ([None] for NULL, otherwise the first item read as a [Window]) and
    [nitems]. *)
Record property_reply : Type := {
  pr_status : Z;
  pr_data : option Z;
  pr_nitems : Z
}.

Record uinput_setup : Type := {
  id_bustype : Z;
  id_vendor : Z;
  id_product : Z;
  id_version : Z;
  name : string;
  ff_effects_max : Z
}.

Inductive uinput_request : Type :=
| UI_SET_EVBIT (bit : Z)
| UI_SET_KEYBIT (key : Z)
| UI_DEV_SETUP (setup : uinput_setup)
| UI_DEV_CREATE
| UI_DEV_DESTROY.

(** [struct input_event] after [memset]: the time stamp stays zero. *)
Record input_event : Type := {
  ie_type : Z;
  ie_code : Z;
  ie_value : Z
}.

(** *** External calls, as they appear in a trace *)

Module Ev.
Inductive call : Type :=
| XOpenDisplay (display_name : option string) (dpy : bool)
| XCloseDisplay
| XTestQueryExtension (present : bool)
| XInternAtom (atom_name : string) (only_if_exists : bool) (atom : Z)
| XGetWindowProperty (w property long_offset long_length : Z)
    (delete : bool) (req_type : Z) (reply : property_reply)
| XFree
| XGetInputFocus (focus : Z)
| XSendEvent (w : Z) (propagate : bool) (event_mask : Z)
    (event : XClientMessageEvent)
| XFlush
| XSetInputFocus (focus revert_to time : Z)
| XGetClassHint (w : Z) (hint : option XClassHint)
| XKeysymToKeycode (keysym keycode : Z)
| XTestFakeKeyEvent (keycode : Z) (is_press : bool) (delay : Z)
| usleep (usec : Z)
| open (path : string) (flags fd : Z)
| ioctl (fd : Z) (request : uinput_request) (result : Z)
| write (fd : Z) (ie : input_event)
| close (fd : Z)
| fprintf_stderr (fmt : string) (args : list printf_arg).
End Ev.

(** *** The environment: one answer per external function

    No call is issued twice with the same arguments in one run (apart
    from calls whose result the program discards), so an answer that
    depends on the arguments alone loses no generality. *)

Record Env : Type := {
  HAVE_UINPUT : bool;                       (* build-time switch *)
  ans_XOpenDisplay : bool;                  (* false: NULL *)
  ans_XTestQueryExtension : bool;
  DefaultRootWindow : Z;
  ans_XInternAtom : string -> bool -> Z;
  ans_XGetWindowProperty : Z -> Z -> property_reply;
  ans_XGetInputFocus : Z;
  ans_XGetClassHint : Z -> option XClassHint;
  ans_XKeysymToKeycode : Z -> Z;
  ans_open : string -> Z;                   (* negative: failure *)
  ans_strerror_errno : string;
  ans_ioctl : Z -> uinput_request -> Z      (* negative: failure *)
}.

(** *** The terminal registry and its classifier *)

Definition terminal_classes : list string := [
  "konsole"; "gnome-terminal"; "terminal"; "kitty"; "alacritty";
  "terminator"; "xterm"; "urxvt"; "rxvt"; "tilix"; "terminology";
  "wezterm"; "foot"; "st"; "yakuake"; "ghostty"; "guake"; "tilda";
  "hyper"; "tabby"; "sakura"; "warp" ].

(** The [for] loop of [is_terminal] over the rest of the table. *)
Fixpoint is_terminal_from (wm_class : string) (table : list string) : bool :=
  match table with
  | [] => false
  | entry :: table' =>
      match strcasestr wm_class entry with
      | Some _ => true
      | None => is_terminal_from wm_class table'
      end
  end.

(** [wm_class] is a C pointer: [None] is NULL. *)
Definition is_terminal (wm_class : option string) : bool :=
  match wm_class with
  | None => false
  | Some s => is_terminal_from s terminal_classes
  end.

(** *** Command line *)

Record options : Type := {
  force_terminal : bool;
  use_uinput : bool;
  target_window : Z
}.

Definition initial_options : options :=
  {| force_terminal := false; use_uinput := false; target_window := XNone |}.

(** The argument loop of [main], from [argv[i]] on. *)
Fixpoint parse_args (args : list string) (o : options) : options :=
  match args with
  | [] => o
  | arg :: rest =>
      if streq arg "--terminal" then
        parse_args rest {| force_terminal := true;
                           use_uinput := use_uinput o;
                           target_window := target_window o |}
      else if streq arg "--uinput" then
        parse_args rest {| force_terminal := force_terminal o;
                           use_uinput := true;
                           target_window := target_window o |}
      else if streq arg "--window" then
        match rest with
        | id :: rest' =>
            parse_args rest' {| force_terminal := force_terminal o;
                                use_uinput := use_uinput o;
                                target_window := strtoul0 id |}
        | [] => o
        end
      else parse_args rest o
  end.

Section Program.

Variable env : Env.

Definition IO : Type -> Type := Trace.IO Ev.call.

(** *** Wrappers: issue the call, record it with its answer *)

Definition XOpenDisplay (display_name : option string) : IO bool :=
  let r := ans_XOpenDisplay env in call (Ev.XOpenDisplay display_name r) r.

Definition XCloseDisplay : IO unit := call Ev.XCloseDisplay tt.

Definition XTestQueryExtension : IO bool :=
  let r := ans_XTestQueryExtension env in call (Ev.XTestQueryExtension r) r.

Definition XInternAtom (atom_name : string) (only_if_exists : bool) : IO Z :=
  let r := ans_XInternAtom env atom_name only_if_exists in
  call (Ev.XInternAtom atom_name only_if_exists r) r.

Definition XGetWindowProperty (w property long_offset long_length : Z)
    (delete : bool) (req_type : Z) : IO property_reply :=
  let r := ans_XGetWindowProperty env w property in
  call (Ev.XGetWindowProperty w property long_offset long_length
          delete req_type r) r.

Definition XFree : IO unit := call Ev.XFree tt.

Definition XGetInputFocus : IO Z :=
  let r := ans_XGetInputFocus env in call (Ev.XGetInputFocus r) r.

Definition XSendEvent (w : Z) (propagate : bool) (event_mask : Z)
    (event : XClientMessageEvent) : IO unit :=
  call (Ev.XSendEvent w propagate event_mask event) tt.

Definition XFlush : IO unit := call Ev.XFlush tt.

Definition XSetInputFocus (focus revert_to time : Z) : IO unit :=
  call (Ev.XSetInputFocus focus revert_to time) tt.

Definition XGetClassHint (w : Z) : IO (option XClassHint) :=
  let r := ans_XGetClassHint env w in call (Ev.XGetClassHint w r) r.

Definition XKeysymToKeycode (keysym : Z) : IO Z :=
  let r := ans_XKeysymToKeycode env keysym in
  call (Ev.XKeysymToKeycode keysym r) r.

Definition XTestFakeKeyEvent (keycode : Z) (is_press : bool) (delay : Z)
    : IO unit :=
  call (Ev.XTestFakeKeyEvent keycode is_press delay) tt.

Definition usleep (usec : Z) : IO unit := call (Ev.usleep usec) tt.

Definition open (path : string) (flags : Z) : IO Z :=
  let r := ans_open env path in call (Ev.open path flags r) r.

Definition ioctl (fd : Z) (request : uinput_request) : IO Z :=
  let r := ans_ioctl env fd request in call (Ev.ioctl fd request r) r.

(** The result of [write] is never used by the program. *)
Definition write (fd : Z) (ie : input_event) : IO unit :=
  call (Ev.write fd ie) tt.

Definition close (fd : Z) : IO unit := call (Ev.close fd) tt.

Definition fprintf_stderr (fmt : string) (args : list printf_arg) : IO unit :=
  call (Ev.fprintf_stderr fmt args) tt.

(** [a || b] on two calls: [b] is not issued when [a] already holds. *)
Definition orelse (a b : IO bool) : IO bool :=
  x <- a ;; if (x : bool) then ret true else b.

Definition when (c : bool) (m : IO unit) : IO unit :=
  if c then m else ret tt.

(** *** [get_active_window] *)

(** Lines 53-56: ask the server for the focus window. *)
Definition input_focus_fallback : IO Z :=
  focused <- XGetInputFocus ;;
  ret focused.

Definition get_active_window : IO Z :=
  prop <- XInternAtom "_NET_ACTIVE_WINDOW" true ;;
  if negb (prop =? XNone) then
    reply <- XGetWindowProperty (DefaultRootWindow env) prop 0 1 false
               XA_WINDOW ;;
    match pr_data reply with
    | Some first =>
        if pr_status reply =? Success then
          let win := if 0 <? pr_nitems reply then first else XNone in
          XFree ;;
          if negb (win =? XNone) then ret win
          else input_focus_fallback
        else input_focus_fallback
    | None => input_focus_fallback
    end
  else input_focus_fallback.

(** *** [activate_window] *)

Definition activate_window (win : Z) : IO unit :=
  net_active <- XInternAtom "_NET_ACTIVE_WINDOW" false ;;
  let ev := {| xclient_type := ClientMessage;
               xclient_window := win;
               xclient_message_type := net_active;
               xclient_format := 32;
               xclient_data_l := [2; CurrentTime; 0; 0; 0] |} in
  XSendEvent (DefaultRootWindow env) false
    (Z.lor SubstructureNotifyMask SubstructureRedirectMask) ev ;;
  XFlush ;;
  usleep 50000 ;;
  XSetInputFocus win RevertToParent CurrentTime ;;
  XFlush ;;
  usleep 20000.

(** *** The virtual-device backend *)

Definition emit (fd type code val : Z) : IO unit :=
  write fd {| ie_type := type; ie_code := code; ie_value := val |}.

Definition ioctl_fails (fd : Z) (request : uinput_request) : IO bool :=
  r <- ioctl fd request ;;
  ret (r <? 0).

Definition usetup : uinput_setup :=
  {| id_bustype := BUS_USB;
     id_vendor := 0x1234;
     id_product := 0x5678;
     id_version := 0;
     name := "openwhispr-paste";
     ff_effects_max := 0 |}.

Definition paste_via_uinput (use_shift : bool) : IO Z :=
  fd <- open "/dev/uinput" (Z.lor O_WRONLY O_NONBLOCK) ;;
  if fd <? 0 then
    fprintf_stderr ("Cannot open /dev/uinput: %s" ++ nl)%string
      [ArgStr (ans_strerror_errno env)] ;;
    ret 3
  else
    failed <- orelse (ioctl_fails fd (UI_SET_EVBIT EV_KEY))
             (orelse (ioctl_fails fd (UI_SET_KEYBIT KEY_LEFTCTRL))
             (orelse (ioctl_fails fd (UI_SET_KEYBIT KEY_LEFTSHIFT))
                     (ioctl_fails fd (UI_SET_KEYBIT KEY_V)))) ;;
    if (failed : bool) then
      close fd ;;
      ret 4
    else
      failed <- orelse (ioctl_fails fd (UI_DEV_SETUP usetup))
                       (ioctl_fails fd UI_DEV_CREATE) ;;
      if (failed : bool) then
        close fd ;;
        ret 4
      else
        usleep 50000 ;;
        emit fd EV_KEY KEY_LEFTCTRL 1 ;;
        emit fd EV_SYN SYN_REPORT 0 ;;
        when use_shift
          (emit fd EV_KEY KEY_LEFTSHIFT 1 ;;
           emit fd EV_SYN SYN_REPORT 0) ;;
        usleep 8000 ;;
        emit fd EV_KEY KEY_V 1 ;;
        emit fd EV_SYN SYN_REPORT 0 ;;
        usleep 8000 ;;
        emit fd EV_KEY KEY_V 0 ;;
        emit fd EV_SYN SYN_REPORT 0 ;;
        usleep 8000 ;;
        when use_shift
          (emit fd EV_KEY KEY_LEFTSHIFT 0 ;;
           emit fd EV_SYN SYN_REPORT 0) ;;
        emit fd EV_KEY KEY_LEFTCTRL 0 ;;
        emit fd EV_SYN SYN_REPORT 0 ;;
        usleep 20000 ;;
        _ <- ioctl fd UI_DEV_DESTROY ;;
        close fd ;;
        ret 0.

(** *** The display-server backend: lines 187-233 of [main] *)

(** Lines 202-210: [use_shift], from [--terminal] or from the class hint. *)
Definition classify (force_terminal : bool) (win : Z) : IO bool :=
  if negb force_terminal && negb (win =? XNone) then
    hint <- XGetClassHint win ;;
    match hint with
    | Some h =>
        let use_shift := is_terminal (res_class h) || is_terminal (res_name h) in
        XFree ;;
        XFree ;;
        ret use_shift
    | None => ret force_terminal
    end
  else ret force_terminal.

(** Lines 212-228: the key events. *)
Definition fake_paste (use_shift : bool) : IO unit :=
  ctrl <- XKeysymToKeycode XK_Control_L ;;
  shift <- XKeysymToKeycode XK_Shift_L ;;
  v <- XKeysymToKeycode XK_v ;;
  XTestFakeKeyEvent ctrl true CurrentTime ;;
  when use_shift (XTestFakeKeyEvent shift true CurrentTime) ;;
  usleep 8000 ;;
  XTestFakeKeyEvent v true CurrentTime ;;
  usleep 8000 ;;
  XTestFakeKeyEvent v false CurrentTime ;;
  usleep 8000 ;;
  when use_shift (XTestFakeKeyEvent shift false CurrentTime) ;;
  XTestFakeKeyEvent ctrl false CurrentTime.

Definition paste_via_xtest (o : options) : IO Z :=
  dpy <- XOpenDisplay None ;;
  if negb dpy then ret 1
  else
    present <- XTestQueryExtension ;;
    if negb present then
      XCloseDisplay ;;
      ret 2
    else
      when (negb (target_window o =? XNone))
        (activate_window (target_window o)) ;;
      win <- (if negb (target_window o =? XNone) then ret (target_window o)
              else get_active_window) ;;
      use_shift <- classify (force_terminal o) win ;;
      fake_paste use_shift ;;
      XFlush ;;
      usleep 20000 ;;
      XCloseDisplay ;;
      ret 0.

(** *** [main] *)

Definition main (argv : list string) : IO Z :=
  let o := parse_args (tl argv) initial_options in
  if use_uinput o then
    if HAVE_UINPUT env then paste_via_uinput (force_terminal o)
    else
      fprintf_stderr ("uinput support not compiled in" ++ nl)%string [] ;;
      ret 3
  else paste_via_xtest o.

End Program.

(** *** Reading a trace *)

(** The key events of a trace as (code, pressed) pairs: fake key events
    of the display server and [EV_KEY] records written to the device. *)
Definition key_event_of (c : Ev.call) : list (Z * bool) :=
  match c with
  | Ev.XTestFakeKeyEvent keycode is_press _ => [(keycode, is_press)]
  | Ev.write _ ie =>
      if ie_type ie =? EV_KEY then [(ie_code ie, negb (ie_value ie =? 0))]
      else []
  | _ => []
  end.

Definition key_events (t : list Ev.call) : list (Z * bool) :=
  flat_map key_event_of t.

(** Everything written to the device, key or not. *)
Definition writes (t : list Ev.call) : list input_event :=
  flat_map (fun c => match c with Ev.write _ ie => [ie] | _ => [] end) t.

Definition opened (t : list Ev.call) : list Z :=
  flat_map (fun c => match c with
                     | Ev.open _ _ fd => if fd <? 0 then [] else [fd]
                     | _ => []
                     end) t.

Definition closed (t : list Ev.call) : list Z :=
  flat_map (fun c => match c with Ev.close fd => [fd] | _ => [] end) t.

(** How each backend encodes a logical key event. *)
Definition pressed (a : KeySequence.Action) : bool :=
  match a with KeySequence.Press => true | KeySequence.Release => false end.

Definition keysym_of (k : KeySequence.Key) : Z :=
  match k with
  | KeySequence.Ctrl => XK_Control_L
  | KeySequence.Shift => XK_Shift_L
  | KeySequence.V => XK_v
  end.

Definition xtest_encode (env : Env) (e : KeySequence.KeyEvent) : Z * bool :=
  (ans_XKeysymToKeycode env (keysym_of (fst e)), pressed (snd e)).

Definition uinput_code (k : KeySequence.Key) : Z :=
  match k with
  | KeySequence.Ctrl => KEY_LEFTCTRL
  | KeySequence.Shift => KEY_LEFTSHIFT
  | KeySequence.V => KEY_V
  end.

Definition uinput_encode (e : KeySequence.KeyEvent) : Z * bool :=
  (uinput_code (fst e), pressed (snd e)).

(** Requests that failed, in the order they were issued. *)
Definition failed_ioctls (t : list Ev.call) : list uinput_request :=
  flat_map (fun c => match c with
                     | Ev.ioctl _ request r => if r <? 0 then [request] else []
                     | _ => []
                     end) t.

(** Device setup is everything but the final destroy. *)
Definition setup_request (r : uinput_request) : bool :=
  match r with
  | UI_DEV_DESTROY => false
  | _ => true
  end.

(** The six setup requests of [paste_via_uinput], in program order:
    capability registration, device setup, device creation. *)
Definition setup_requests : list uinput_request :=
  [ UI_SET_EVBIT EV_KEY;
    UI_SET_KEYBIT KEY_LEFTCTRL;
    UI_SET_KEYBIT KEY_LEFTSHIFT;
    UI_SET_KEYBIT KEY_V;
    UI_DEV_SETUP usetup;
    UI_DEV_CREATE ].

Definition setup_failed (t : list Ev.call) : Prop :=
  exists request, In request (failed_ioctls t) /\ setup_request request = true.

Definition creation_denied (t : list Ev.call) : Prop :=
  In UI_DEV_CREATE (failed_ioctls t).

Definition stderr_output (t : list Ev.call) : list string :=
  flat_map (fun c => match c with
                     | Ev.fprintf_stderr fmt args => [render fmt args]
                     | _ => []
                     end) t.

Definition step_of (c : Ev.call) : option ControlFlow.step :=
  match c with
  | Ev.XSendEvent _ _ _ _ => Some ControlFlow.Activate
  | Ev.XSetInputFocus _ _ _ => Some ControlFlow.Activate
  | Ev.XGetWindowProperty _ _ _ _ _ _ _ => Some ControlFlow.Resolve
  | Ev.XGetInputFocus _ => Some ControlFlow.Resolve
  | Ev.XGetClassHint _ _ => Some ControlFlow.QueryClass
  | Ev.XTestFakeKeyEvent _ _ _ => Some ControlFlow.Synthesize
  | Ev.write _ ie =>
      if ie_type ie =? EV_KEY then Some ControlFlow.Synthesize else None
  | _ => None
  end.

(** The activation protocol for window [w]: the client message goes to
    the root window, the connection is flushed, 50 ms pass, the focus is
    set. *)
Definition activation_calls (env : Env) (w : Z) : list Ev.call :=
  [ Ev.XSendEvent (DefaultRootWindow env) false
      (Z.lor SubstructureNotifyMask SubstructureRedirectMask)
      {| xclient_type := ClientMessage;
         xclient_window := w;
         xclient_message_type := ans_XInternAtom env "_NET_ACTIVE_WINDOW" false;
         xclient_format := 32;
         xclient_data_l := [2; CurrentTime; 0; 0; 0] |};
    Ev.XFlush;
    Ev.usleep 50000;
    Ev.XSetInputFocus w RevertToParent CurrentTime ].

Definition activation_precedes_keys (env : Env) (w : Z) (t : list Ev.call)
    : Prop :=
  exists pre post,
    t = pre ++ activation_calls env w ++ post /\ key_events pre = [].

(** The window the display-server backend works on: the [--window]
    argument, or else what [get_active_window] returns. *)
Definition resolved_window (env : Env) (o : options) : Z :=
  if negb (target_window o =? XNone) then target_window o
  else Trace.result (get_active_window env).

(** *** Further readings of a trace *)

(** Every request sent to the device, failed or not, in order. *)
Definition ioctl_requests (t : list Ev.call) : list uinput_request :=
  flat_map (fun c => match c with
                     | Ev.ioctl _ request _ => [request]
                     | _ => []
                     end) t.

(** The key codes whose [UI_SET_KEYBIT] request was accepted. *)
Definition registered_keys (t : list Ev.call) : list Z :=
  flat_map (fun c => match c with
                     | Ev.ioctl _ (UI_SET_KEYBIT key) r =>
                         if r <? 0 then [] else [key]
                     | _ => []
                     end) t.

(** The descriptors that requests and records were addressed to. *)
Definition device_targets (t : list Ev.call) : list Z :=
  flat_map (fun c => match c with
                     | Ev.ioctl fd _ _ => [fd]
                     | Ev.write fd _ => [fd]
                     | _ => []
                     end) t.

(** Microseconds spent in [usleep]. *)
Definition slept (t : list Ev.call) : Z :=
  fold_right (fun c rest => match c with
                            | Ev.usleep usec => usec + rest
                            | _ => rest
                            end) 0 t.

Definition displays_opened (t : list Ev.call) : nat :=
  List.length (filter (fun c => match c with
                                | Ev.XOpenDisplay _ true => true
                                | _ => false
                                end) t).

Definition displays_closed (t : list Ev.call) : nat :=
  List.length (filter (fun c => match c with
                                | Ev.XCloseDisplay => true
                                | _ => false
                                end) t).

Definition frees (t : list Ev.call) : nat :=
  List.length (filter (fun c => match c with
                                | Ev.XFree => true
                                | _ => false
                                end) t).

Definition focus_queries (t : list Ev.call) : nat :=
  List.length (filter (fun c => match c with
                                | Ev.XGetInputFocus _ => true
                                | _ => false
                                end) t).

(** The record [emit] writes for a key event, and the report that
    follows it. *)
Definition key_record (e : Z * bool) : input_event :=
  {| ie_type := EV_KEY; ie_code := fst e;
     ie_value := if snd e then 1 else 0 |}.

Definition syn_report : input_event :=
  {| ie_type := EV_SYN; ie_code := SYN_REPORT; ie_value := 0 |}.

(** *** Sample environments *)

Definition sample_keycode (keysym : Z) : Z :=
  if keysym =? XK_Control_L then 37
  else if keysym =? XK_Shift_L then 50
  else if keysym =? XK_v then 55
  else 0.

(** A desktop whose active window is [0x2400007], with the class hint and
    the answers of the uinput device as given. *)
Definition sample_env (dpy xtest : bool) (hint : option XClassHint)
    (fd : Z) (ioctl_answer : uinput_request -> Z) : Env :=
  {| HAVE_UINPUT := true;
     ans_XOpenDisplay := dpy;
     ans_XTestQueryExtension := xtest;
     DefaultRootWindow := 0x1e7;
     ans_XInternAtom := fun _ _ => 0x15f;
     ans_XGetWindowProperty := fun _ _ =>
       {| pr_status := Success; pr_data := Some 0x2400007; pr_nitems := 1 |};
     ans_XGetInputFocus := 0x2400007;
     ans_XGetClassHint := fun _ => hint;
     ans_XKeysymToKeycode := sample_keycode;
     ans_open := fun _ => fd;
     ans_strerror_errno := "Permission denied";
     ans_ioctl := fun _ => ioctl_answer |}.

Definition firefox_hint : option XClassHint :=
  Some {| res_name := Some "Navigator"; res_class := Some "firefox" |}.

Definition all_granted (request : uinput_request) : Z := 0.

Definition creation_refused (request : uinput_request) : Z :=
  match request with
  | UI_DEV_CREATE => -1
  | _ => 0
  end.

Definition desktop : Env := sample_env true true firefox_hint 3 all_granted.

End Linux.

(** ** The Windows helper, [resources/windows-fast-paste.c] *)

Module Windows.

Import CString Stdio Trace.
Local Open Scope io_scope.

(** *** Constants of the Win32 headers *)

Definition INPUT_KEYBOARD : Z := 1.
Definition VK_SHIFT : Z := 0x10.
Definition VK_CONTROL : Z := 0x11.
Definition VK_V : Z := 0x56.               (* the character constant 'V' *)
Definition KEYEVENTF_KEYUP : Z := 0x0002.

(** An [INPUT] record; only the keyboard member is used.  The array is
    cleared by [ZeroMemory], so a field the program does not assign is 0. *)
Record INPUT : Type := {
  type : Z;
  ki_wVk : Z;
  ki_wScan : Z;
  ki_dwFlags : Z;
  ki_time : Z;
  ki_dwExtraInfo : Z
}.

Definition key_down (vk : Z) : INPUT :=
  {| type := INPUT_KEYBOARD; ki_wVk := vk; ki_wScan := 0; ki_dwFlags := 0;
     ki_time := 0; ki_dwExtraInfo := 0 |}.

Definition key_up (vk : Z) : INPUT :=
  {| type := INPUT_KEYBOARD; ki_wVk := vk; ki_wScan := 0;
     ki_dwFlags := KEYEVENTF_KEYUP; ki_time := 0; ki_dwExtraInfo := 0 |}.

Module Ev.
Inductive call : Type :=
| GetForegroundWindow (hwnd : Z)
| GetClassNameA (hwnd nMaxCount : Z) (className : string) (classLen : Z)
| GetLastError (code : Z)
| Sleep (ms : Z)
| SendInput (inputs : list INPUT) (sent : Z)
| printf (fmt : string) (args : list printf_arg)
| fflush_stdout
| fprintf_stderr (fmt : string) (args : list printf_arg).
End Ev.

Record Env : Type := {
  ans_GetForegroundWindow : Z;              (* 0: no foreground window *)
  ans_GetClassNameA : Z -> string;          (* empty: the call failed *)
  ans_GetLastError : Z;
  ans_SendInput : list INPUT -> Z           (* events accepted *)
}.

(** *** The terminal registry and its classifier *)

Definition TERMINAL_CLASSES : list string := [
  "ConsoleWindowClass";
  "CASCADIA_HOSTING_WINDOW_CLASS";
  "mintty";
  "VirtualConsoleClass";
  "PuTTY";
  "Alacritty";
  "org.wezfurlong.wezterm";
  "Hyper";
  "TMobaXterm";
  "kitty" ].

(** The [for] loop of [IsTerminalClass] over the rest of the table. *)
Fixpoint IsTerminalClass_from (className : string) (table : list string)
    : bool :=
  match table with
  | [] => false
  | entry :: table' =>
      if _stricmp className entry =? 0 then true
      else IsTerminalClass_from className table'
  end.

Definition IsTerminalClass (className : string) : bool :=
  IsTerminalClass_from className TERMINAL_CLASSES.

Section Program.

Variable env : Env.

Definition IO : Type -> Type := Trace.IO Ev.call.

Definition GetForegroundWindow : IO Z :=
  let r := ans_GetForegroundWindow env in call (Ev.GetForegroundWindow r) r.

(** At most [nMaxCount - 1] characters are copied; the result is the
    number of characters copied, 0 on failure. *)
Definition GetClassNameA (hwnd nMaxCount : Z) : IO (Z * string) :=
  let className :=
    substring 0 (Z.to_nat (nMaxCount - 1)) (ans_GetClassNameA env hwnd) in
  let classLen := Z.of_nat (String.length className) in
  call (Ev.GetClassNameA hwnd nMaxCount className classLen)
       (classLen, className).

Definition GetLastError : IO Z :=
  let r := ans_GetLastError env in call (Ev.GetLastError r) r.

Definition Sleep (ms : Z) : IO unit := call (Ev.Sleep ms) tt.

Definition SendInput (inputs : list INPUT) : IO Z :=
  let r := ans_SendInput env inputs in call (Ev.SendInput inputs r) r.

Definition printf (fmt : string) (args : list printf_arg) : IO unit :=
  call (Ev.printf fmt args) tt.

Definition fflush_stdout : IO unit := call Ev.fflush_stdout tt.

Definition fprintf_stderr (fmt : string) (args : list printf_arg) : IO unit :=
  call (Ev.fprintf_stderr fmt args) tt.

Definition SendPasteNormal : IO Z :=
  let inputs := [ key_down VK_CONTROL;
                  key_down VK_V;
                  key_up VK_V;
                  key_up VK_CONTROL ] in
  sent <- SendInput inputs ;;
  ret (if sent =? 4 then 0 else 1).

Definition SendPasteTerminal : IO Z :=
  let inputs := [ key_down VK_CONTROL;
                  key_down VK_SHIFT;
                  key_down VK_V;
                  key_up VK_V;
                  key_up VK_SHIFT;
                  key_up VK_CONTROL ] in
  sent <- SendInput inputs ;;
  ret (if sent =? 6 then 0 else 1).

(** The argument loop of [main]. *)
Fixpoint parse_args (args : list string) (detectOnly : bool) : bool :=
  match args with
  | [] => detectOnly
  | arg :: rest =>
      if streq arg "--detect-only" then parse_args rest true
      else parse_args rest detectOnly
  end.

Definition bool_text (b : bool) : string := if b then "true" else "false".

Definition main (argv : list string) : IO Z :=
  let detectOnly := parse_args (tl argv) false in
  hwnd <- GetForegroundWindow ;;
  if hwnd =? 0 then
    fprintf_stderr ("ERROR: No foreground window found" ++ nl)%string [] ;;
    ret 2
  else
    got <- GetClassNameA hwnd 256 ;;
    let '(classLen, className) := got in
    if classLen =? 0 then
      err <- GetLastError ;;
      fprintf_stderr
        ("ERROR: Could not get window class name (error %lu)" ++ nl)%string
        [ArgULong err] ;;
      ret 1
    else
      let isTerminal := IsTerminalClass className in
      if (detectOnly : bool) then
        printf ("WINDOW_CLASS %s" ++ nl)%string [ArgStr className] ;;
        printf ("IS_TERMINAL %s" ++ nl)%string
          [ArgStr (bool_text isTerminal)] ;;
        fflush_stdout ;;
        ret 0
      else
        Sleep 5 ;;
        result <- (if isTerminal then SendPasteTerminal
                   else SendPasteNormal) ;;
        if negb (result =? 0) then
          err <- GetLastError ;;
          fprintf_stderr
            ("ERROR: SendInput failed (error %lu)" ++ nl)%string
            [ArgULong err] ;;
          ret 1
        else
          Sleep 20 ;;
          printf ("PASTE_OK %s %s" ++ nl)%string
            [ArgStr className;
             ArgStr (if isTerminal then "ctrl+shift+v" else "ctrl+v")] ;;
          fflush_stdout ;;
          ret 0.

End Program.

(** *** Reading a trace *)

Definition key_event_of_INPUT (i : INPUT) : list (Z * bool) :=
  if type i =? INPUT_KEYBOARD
  then [(ki_wVk i, Z.land (ki_dwFlags i) KEYEVENTF_KEYUP =? 0)]
  else [].

(** The keyboard events submitted to the input queue. *)
Definition key_events (t : list Ev.call) : list (Z * bool) :=
  flat_map (fun c => match c with
                     | Ev.SendInput inputs _ =>
                         flat_map key_event_of_INPUT inputs
                     | _ => []
                     end) t.

(** The text sent to standard output. *)
Definition stdout_text (t : list Ev.call) : string :=
  fold_right (fun c rest => match c with
                            | Ev.printf fmt args =>
                                (render fmt args ++ rest)%string
                            | _ => rest
                            end) EmptyString t.

Definition virtual_key (k : KeySequence.Key) : Z :=
  match k with
  | KeySequence.Ctrl => VK_CONTROL
  | KeySequence.Shift => VK_SHIFT
  | KeySequence.V => VK_V
  end.

Definition sendinput_encode (e : KeySequence.KeyEvent) : Z * bool :=
  (virtual_key (fst e),
   match snd e with KeySequence.Press => true | KeySequence.Release => false end).

(** The class name that [main] reads for the foreground window. *)
Definition foreground_class (env : Env) : string :=
  snd (Trace.result (GetClassNameA env (ans_GetForegroundWindow env) 256)).

Definition sent_inputs (t : list Ev.call) : list (list INPUT) :=
  flat_map (fun c => match c with
                     | Ev.SendInput inputs _ => [inputs]
                     | _ => []
                     end) t.

Definition step_of (c : Ev.call) : option ControlFlow.step :=
  match c with
  | Ev.GetForegroundWindow _ => Some ControlFlow.Resolve
  | Ev.GetClassNameA _ _ _ _ => Some ControlFlow.QueryClass
  | Ev.SendInput _ _ => Some ControlFlow.Synthesize
  | _ => None
  end.

(** Milliseconds spent in [Sleep]. *)
Definition slept (t : list Ev.call) : Z :=
  fold_right (fun c rest => match c with
                            | Ev.Sleep ms => ms + rest
                            | _ => rest
                            end) 0 t.

(** The text sent to the error stream. *)
Definition stderr_text (t : list Ev.call) : string :=
  fold_right (fun c rest => match c with
                            | Ev.fprintf_stderr fmt args =>
                                (render fmt args ++ rest)%string
                            | _ => rest
                            end) EmptyString t.

(** *** Sample environment: a foreground window of the given class, an
    input queue that accepts everything. *)
Definition sample_env (className : string) : Env :=
  {| ans_GetForegroundWindow := 0x50a3c;
     ans_GetClassNameA := fun _ => className;
     ans_GetLastError := 0;
     ans_SendInput := fun inputs => Z.of_nat (List.length inputs) |}.

End Windows.

(** * Properties *)

(** ** The string functions meet their descriptions *)

Module CStringFacts.

Import CString.

Lemma lower_app (s t : string) : lower (s ++ t) = (lower s ++ lower t)%string.
Proof.
  induction s as [|c s IH]; simpl; [reflexivity|].
  now rewrite IH.
Qed.

Lemma prefix_ci_spec (needle hay : string) :
  prefix_ci needle hay = true <->
  exists post, lower hay = (lower needle ++ post)%string.
Proof.
  revert hay; induction needle as [|a needle IH]; intros hay; simpl.
  - split; [intros _; now exists (lower hay) | reflexivity].
  - destruct hay as [|b hay]; simpl.
    + split; [discriminate | intros [post H]; discriminate].
    + rewrite andb_true_iff, Ascii.eqb_eq, IH.
      split.
      * intros [Hc [post Hp]]. exists post. now rewrite Hc, Hp.
      * intros [post Hp]. injection Hp as Hc Hp.
        split; [now symmetry | now exists post].
Qed.

Lemma prefix_ci_contains (needle hay : string) :
  prefix_ci needle hay = true -> contains_ci hay needle.
Proof.
  intros E. apply prefix_ci_spec in E. destruct E as [post E].
  now exists EmptyString, post.
Qed.

Lemma strcasestr_spec (hay needle : string) :
  strcasestr hay needle <> None <-> contains_ci hay needle.
Proof.
  induction hay as [|c hay IH]; simpl.
  - destruct (prefix_ci needle "") eqn:E.
    + split; [intros _; now apply prefix_ci_contains | discriminate].
    + split; [congruence|].
      intros [pre [post H]].
      destruct pre as [|p pre]; [|discriminate].
      assert (prefix_ci needle "" = true)
        by (apply prefix_ci_spec; now exists post).
      congruence.
  - destruct (prefix_ci needle (String c hay)) eqn:E.
    + split; [intros _; now apply prefix_ci_contains | discriminate].
    + rewrite IH. split.
      * intros [pre [post H]]. exists (String (tolower c) pre), post.
        simpl. now rewrite H.
      * intros [pre [post H]].
        destruct pre as [|p pre].
        -- assert (prefix_ci needle (String c hay) = true)
             by (apply prefix_ci_spec; now exists post).
           congruence.
        -- simpl in H. injection H as _ H. now exists pre, post.
Qed.

Lemma _stricmp_spec (a b : string) : _stricmp a b = 0 <-> equal_ci a b.
Proof.
  unfold equal_ci.
  revert b; induction a as [|ca a IH]; intros [|cb b]; simpl;
    try (split; [tauto || discriminate | tauto || discriminate]).
  destruct (Ascii.eqb_spec (tolower ca) (tolower cb)) as [E|E].
  - rewrite IH, E. split; [intros ->; reflexivity | now intros [= ->]].
  - split.
    + destruct (_ <? _)%N; discriminate.
    + intros [= H _]. contradiction.
Qed.

End CStringFacts.

(** ** The classifiers *)

Section Classifiers.

Import CString CStringFacts.

Lemma is_terminal_from_spec (s : string) (table : list string) :
  Linux.is_terminal_from s table = true <->
  exists t, In t table /\ contains_ci s t.
Proof.
  induction table as [|entry table IH]; simpl.
  - split; [discriminate | intros [t [[] _]]].
  - destruct (strcasestr s entry) as [hit|] eqn:E.
    + split; [intros _ | reflexivity].
      exists entry. split; [now left|].
      apply strcasestr_spec. congruence.
    + rewrite IH. split.
      * intros [t [Hin Hc]]. exists t. split; [now right | exact Hc].
      * intros [t [[<- | Hin] Hc]].
        -- apply strcasestr_spec in Hc. congruence.
        -- now exists t.
Qed.

Lemma IsTerminalClass_from_spec (s : string) (table : list string) :
  Windows.IsTerminalClass_from s table = true <->
  exists t, In t table /\ equal_ci s t.
Proof.
  induction table as [|entry table IH]; simpl.
  - split; [discriminate | intros [t [[] _]]].
  - destruct (Z.eqb_spec (_stricmp s entry) 0) as [E|E].
    + split; [intros _ | reflexivity].
      exists entry. split; [now left | now apply _stricmp_spec].
    + rewrite IH. split.
      * intros [t [Hin Hc]]. exists t. split; [now right | exact Hc].
      * intros [t [[<- | Hin] Hc]].
        -- apply _stricmp_spec in Hc. contradiction.
        -- now exists t.
Qed.

(** C1.  [is_terminal] answers true exactly for the strings that contain,
    letter case ignored, some entry of [terminal_classes] as a substring,
    and hence false for every string that contains none; a NULL pointer
    and the empty string are answered false; "gnome-terminal-server" is a
    terminal and "firefox" is not. *)
Theorem C1_is_terminal_substring_match :
  (forall s, Linux.is_terminal (Some s) = true <->
             exists t, In t Linux.terminal_classes /\ contains_ci s t) /\
  (forall s, Linux.is_terminal (Some s) = false <->
             forall t, In t Linux.terminal_classes -> ~ contains_ci s t) /\
  Linux.is_terminal None = false /\
  Linux.is_terminal (Some "") = false /\
  Linux.is_terminal (Some "gnome-terminal-server") = true /\
  Linux.is_terminal (Some "firefox") = false.
Proof.
  assert (Hyes : forall s, Linux.is_terminal (Some s) = true <->
             exists t, In t Linux.terminal_classes /\ contains_ci s t).
  { intros s. apply is_terminal_from_spec. }
  split; [exact Hyes|].
  split; [|repeat split; reflexivity].
  intros s. split.
  - intros Hf t Hin Hc.
    assert (Linux.is_terminal (Some s) = true) by (apply Hyes; now exists t).
    congruence.
  - intros Hnone. destruct (Linux.is_terminal (Some s)) eqn:E; [|reflexivity].
    apply Hyes in E. destruct E as [t [Hin Hc]]. now destruct (Hnone t Hin).
Qed.

(** C1 at a mixed-case window class: "UXTerm" contains the entry "xterm". *)
Lemma C1_is_terminal_substring_match_witness :
  Linux.is_terminal (Some "UXTerm") = true.
Proof.
  apply (proj1 C1_is_terminal_substring_match "UXTerm").
  exists "xterm". split.
  - simpl. tauto.
  - exists "u", "". reflexivity.
Defined.

(** C4.  [IsTerminalClass] answers true exactly for the names that equal,
    letter case ignored, one of the ten entries of [TERMINAL_CLASSES];
    containing an entry is not enough; "ConsoleWindowClass" is a terminal
    class and "Chrome_WidgetWin_1" is not. *)
Theorem C4_IsTerminalClass_exact_match :
  (forall s, Windows.IsTerminalClass s = true <->
             exists t, In t Windows.TERMINAL_CLASSES /\ equal_ci s t) /\
  List.length Windows.TERMINAL_CLASSES = 10%nat /\
  (exists s t, In t Windows.TERMINAL_CLASSES /\ contains_ci s t /\
               Windows.IsTerminalClass s = false) /\
  Windows.IsTerminalClass "ConsoleWindowClass" = true /\
  Windows.IsTerminalClass "consolewindowclass" = true /\
  Windows.IsTerminalClass "Chrome_WidgetWin_1" = false.
Proof.
  split; [intros s; apply IsTerminalClass_from_spec|].
  split; [reflexivity|].
  split; [|repeat split; reflexivity].
  exists "kitty-main", "kitty". split; [simpl; tauto|].
  split; [|reflexivity].
  exists "", "-main". reflexivity.
Qed.

End Classifiers.

(** ** Key sequences *)

Section KeySequences.

Import KeySequence Trace.

(** Case analysis on a position in a list given by its elements. *)
Ltac by_position H i :=
  repeat (destruct i as [|i]; simpl in H; try discriminate H).

Ltac later_index :=
  first [ exists 1%nat; split; [lia | reflexivity]
        | exists 2%nat; split; [lia | reflexivity]
        | exists 3%nat; split; [lia | reflexivity]
        | exists 4%nat; split; [lia | reflexivity]
        | exists 5%nat; split; [lia | reflexivity] ].

Ltac earlier_index :=
  first [ exists 0%nat; split; [lia | reflexivity]
        | exists 1%nat; split; [lia | reflexivity]
        | exists 2%nat; split; [lia | reflexivity]
        | exists 3%nat; split; [lia | reflexivity]
        | exists 4%nat; split; [lia | reflexivity] ].

Ltac held :=
  split; intros i j Hi Hj;
  by_position Hi i; by_position Hj j; lia.

Ltac stroke_well_formed :=
  unfold well_formed;
  split; [intros k; destruct k; reflexivity|];
  split; [intros i k H; by_position H i; injection H as <-; later_index|];
  split; [intros i k H; by_position H i; injection H as <-; earlier_index|];
  split; [intros _; simpl; tauto|];
  split; held.

Lemma well_formed_nil : well_formed [].
Proof.
  unfold well_formed.
  split; [intros k; reflexivity|].
  split; [intros i k H; destruct i; discriminate H|].
  split; [intros i k H; destruct i; discriminate H|].
  split; [intros []|].
  split; split; intros i j H; destruct i; discriminate H.
Qed.

Lemma well_formed_plain :
  well_formed [(Ctrl, Press); (V, Press); (V, Release); (Ctrl, Release)].
Proof. stroke_well_formed. Qed.

Lemma well_formed_terminal :
  well_formed [(Ctrl, Press); (Shift, Press); (V, Press);
               (V, Release); (Shift, Release); (Ctrl, Release)].
Proof. stroke_well_formed. Qed.

Lemma paste_stroke_plain :
  paste_stroke false [(Ctrl, Press); (V, Press); (V, Release); (Ctrl, Release)].
Proof.
  split; [apply well_formed_plain|].
  split; [reflexivity|].
  split; [simpl; tauto|].
  split; [|discriminate].
  simpl. intros H. repeat (destruct H as [H|H]; try discriminate H). destruct H.
Qed.

Lemma paste_stroke_terminal :
  paste_stroke true [(Ctrl, Press); (Shift, Press); (V, Press);
                     (V, Release); (Shift, Release); (Ctrl, Release)].
Proof.
  split; [apply well_formed_terminal|].
  split; [reflexivity|].
  split; simpl; tauto.
Qed.

End KeySequences.

(** ** Running the programs *)

Create HintDb linux_prog discriminated.
Create HintDb windows_prog discriminated.

#[local] Hint Unfold
  Linux.main Linux.paste_via_xtest Linux.paste_via_uinput Linux.classify
  Linux.fake_paste Linux.activate_window Linux.get_active_window
  Linux.input_focus_fallback Linux.emit Linux.ioctl_fails Linux.orelse
  Linux.when Linux.XOpenDisplay Linux.XCloseDisplay
  Linux.XTestQueryExtension Linux.XInternAtom Linux.XGetWindowProperty
  Linux.XFree Linux.XGetInputFocus Linux.XSendEvent Linux.XFlush
  Linux.XSetInputFocus Linux.XGetClassHint Linux.XKeysymToKeycode
  Linux.XTestFakeKeyEvent Linux.usleep Linux.open Linux.ioctl Linux.write
  Linux.close Linux.fprintf_stderr Linux.resolved_window
  Trace.trace Trace.result Trace.bind Trace.ret Trace.call : linux_prog.

#[local] Hint Unfold
  Windows.main Windows.SendPasteNormal Windows.SendPasteTerminal
  Windows.GetForegroundWindow Windows.GetClassNameA Windows.GetLastError
  Windows.Sleep Windows.SendInput Windows.printf Windows.fflush_stdout
  Windows.fprintf_stderr Trace.trace Trace.result Trace.bind Trace.ret
  Trace.call : windows_prog.

(** One step of symbolic execution: split on the next answer of the
    environment that the control flow depends on. *)
Ltac atomic c :=
  lazymatch c with
  | context [if _ then _ else _] => fail
  | context [match _ with Some _ => _ | None => _ end] => fail
  | _ => idtac
  end.

Ltac case_step :=
  match goal with
  | |- context [if ?c then _ else _] => atomic c; destruct c eqn:?
  | |- context [match ?x with Some _ => _ | None => _ end] =>
      atomic x; destruct x eqn:?
  end.

Ltac run_linux := autounfold with linux_prog; cbn; repeat (case_step; cbn).
Ltac run_windows := autounfold with windows_prog; cbn; repeat (case_step; cbn).

Section Runs.

Import KeySequence Trace.

Lemma nothing_well_formed :
  well_formed [] /\ nested [] [] = true /\ nothing_or_stroke [].
Proof.
  split; [apply well_formed_nil|]. split; [reflexivity | now left].
Qed.

Lemma stroke_well_formed (b : bool) (ks : list KeyEvent) :
  paste_stroke b ks ->
  well_formed ks /\ nested [] ks = true /\ nothing_or_stroke ks.
Proof.
  intros H. pose proof H as [Hw [Hn _]].
  split; [exact Hw|]. split; [exact Hn|]. right. now exists b.
Qed.

(** Offer the three possible key sequences for the events of a run. *)
Ltac pick_sequence :=
  first
    [ exists []; split; [exact nothing_well_formed | reflexivity]
    | eexists; split;
      [exact (stroke_well_formed _ _ paste_stroke_plain) | reflexivity]
    | eexists; split;
      [exact (stroke_well_formed _ _ paste_stroke_terminal) | reflexivity] ].

Lemma fake_paste_keys (env : Linux.Env) (b : bool) :
  exists ks, paste_stroke b ks /\
    Linux.key_events (trace (Linux.fake_paste env b)) =
    map (Linux.xtest_encode env) ks.
Proof.
  destruct b.
  - eexists; split; [apply paste_stroke_terminal | reflexivity].
  - eexists; split; [apply paste_stroke_plain | reflexivity].
Qed.

Lemma paste_via_uinput_keys (env : Linux.Env) (b : bool) :
  exists ks,
    (well_formed ks /\ nested [] ks = true /\ nothing_or_stroke ks) /\
    Linux.key_events (trace (Linux.paste_via_uinput env b)) =
    map Linux.uinput_encode ks.
Proof. run_linux; pick_sequence. Qed.

Lemma paste_via_xtest_keys (env : Linux.Env) (o : Linux.options) :
  exists ks,
    (well_formed ks /\ nested [] ks = true /\ nothing_or_stroke ks) /\
    Linux.key_events (trace (Linux.paste_via_xtest env o)) =
    map (Linux.xtest_encode env) ks.
Proof. destruct o as [ft uu tw]. run_linux; pick_sequence. Qed.

Lemma SendPaste_keys (env : Windows.Env) :
  (exists ks, paste_stroke false ks /\
     Windows.key_events (trace (Windows.SendPasteNormal env)) =
     map Windows.sendinput_encode ks) /\
  (exists ks, paste_stroke true ks /\
     Windows.key_events (trace (Windows.SendPasteTerminal env)) =
     map Windows.sendinput_encode ks).
Proof.
  split.
  - eexists; split; [apply paste_stroke_plain | reflexivity].
  - eexists; split; [apply paste_stroke_terminal | reflexivity].
Qed.

Lemma windows_main_keys (env : Windows.Env) (argv : list string) :
  exists ks,
    (well_formed ks /\ nested [] ks = true /\ nothing_or_stroke ks) /\
    Windows.key_events (trace (Windows.main env argv)) =
    map Windows.sendinput_encode ks.
Proof.
  unfold Windows.main.
  generalize (Windows.parse_args (tl argv) false) as detectOnly.
  intros detectOnly. run_windows; pick_sequence.
Qed.

(** C2.  Every key sequence that a backend issues — the display-server
    backend, the virtual-device backend and the Windows input queue, in
    the plain and in the terminal variant, alone or inside a whole run of
    [main] — is the encoding of a sequence of presses and releases of
    Ctrl, Shift and V in which every key has as many presses as releases,
    every press is followed by a release of the same key, V is pressed
    after every press of Ctrl and Shift and released before every release
    of Shift and Ctrl, and presses and releases are properly nested. *)
Theorem C2_key_sequences_paired_and_nested :
  (forall env b, exists ks, paste_stroke b ks /\
     Linux.key_events (trace (Linux.fake_paste env b)) =
     map (Linux.xtest_encode env) ks) /\
  (forall env b, exists ks,
     (ks = [] \/ paste_stroke b ks) /\
     Linux.key_events (trace (Linux.paste_via_uinput env b)) =
     map Linux.uinput_encode ks) /\
  (forall env, exists ks, paste_stroke false ks /\
     Windows.key_events (trace (Windows.SendPasteNormal env)) =
     map Windows.sendinput_encode ks) /\
  (forall env, exists ks, paste_stroke true ks /\
     Windows.key_events (trace (Windows.SendPasteTerminal env)) =
     map Windows.sendinput_encode ks) /\
  (forall env argv, exists ks,
     (well_formed ks /\ nested [] ks = true /\ nothing_or_stroke ks) /\
     Linux.key_events (trace (Linux.main env argv)) =
     map (if Linux.use_uinput
               (Linux.parse_args (tl argv) Linux.initial_options)
          then Linux.uinput_encode else Linux.xtest_encode env) ks) /\
  (forall env argv, exists ks,
     (well_formed ks /\ nested [] ks = true /\ nothing_or_stroke ks) /\
     Windows.key_events (trace (Windows.main env argv)) =
     map Windows.sendinput_encode ks).
Proof.
  split; [exact fake_paste_keys|].
  split.
  { intros env b. run_linux;
      first [ exists []; split; [now left | reflexivity]
            | eexists; split;
              [right; first [apply paste_stroke_plain
                            | apply paste_stroke_terminal]
              | reflexivity] ]. }
  split; [intros env; apply SendPaste_keys|].
  split; [intros env; apply SendPaste_keys|].
  split; [|exact windows_main_keys].
  intros env argv. unfold Linux.main.
  destruct (Linux.use_uinput _).
  - destruct (Linux.HAVE_UINPUT env).
    + apply paste_via_uinput_keys.
    + exists []. split; [exact nothing_well_formed | reflexivity].
  - apply paste_via_xtest_keys.
Qed.

End Runs.

(** ** The virtual-device backend *)

Section VirtualDevice.

Import Trace.

Ltac now_failed := split; [simpl; tauto | reflexivity].

(** The display-server backend never touches the device. *)
Lemma paste_via_xtest_no_device (env : Linux.Env) (o : Linux.options) :
  Linux.failed_ioctls (trace (Linux.paste_via_xtest env o)) = [] /\
  Linux.opened (trace (Linux.paste_via_xtest env o)) = [] /\
  Linux.closed (trace (Linux.paste_via_xtest env o)) = [] /\
  Linux.writes (trace (Linux.paste_via_xtest env o)) = [].
Proof. destruct o as [ft uu tw]. run_linux; repeat split; reflexivity. Qed.

(** A failed [open] ends the run with status 3 before any request. *)
Lemma paste_via_uinput_open_failed (env : Linux.Env) (b : bool) :
  Linux.ans_open env "/dev/uinput" < 0 ->
  result (Linux.paste_via_uinput env b) = 3 /\
  Linux.writes (trace (Linux.paste_via_uinput env b)) = [] /\
  Linux.closed (trace (Linux.paste_via_uinput env b)) = [].
Proof.
  intros H. apply Z.ltb_lt in H.
  autounfold with linux_prog. cbn. rewrite H. cbn. repeat split.
Qed.

Lemma paste_via_uinput_setup_failed (env : Linux.Env) (b : bool) :
  Linux.setup_failed (trace (Linux.paste_via_uinput env b)) ->
  result (Linux.paste_via_uinput env b) = 4 /\
  Linux.key_events (trace (Linux.paste_via_uinput env b)) = [] /\
  Linux.writes (trace (Linux.paste_via_uinput env b)) = [] /\
  Linux.closed (trace (Linux.paste_via_uinput env b)) =
    [Linux.ans_open env "/dev/uinput"].
Proof.
  unfold Linux.setup_failed, Linux.failed_ioctls.
  run_linux; try congruence.
  all: try (intros _; repeat split; reflexivity).
  all: intros [request [Hin Hsetup]]; exfalso; simpl in Hin;
    repeat (destruct Hin as [<- | Hin]; [discriminate Hsetup|]);
    exact Hin.
Qed.

Lemma creation_denied_setup_failed (t : list Linux.Ev.call) :
  Linux.creation_denied t -> Linux.setup_failed t.
Proof. intros H. exists Linux.UI_DEV_CREATE. now split. Qed.

(** C3.  A run in which the device-creation request [UI_DEV_CREATE] is
    issued and refused exits with status 4, and no key event — indeed no
    input record at all — has been emitted. *)
Theorem C3_creation_denied_exits_4_without_keys :
  forall (env : Linux.Env) (argv : list string),
    Linux.creation_denied (trace (Linux.main env argv)) ->
    result (Linux.main env argv) = 4 /\
    Linux.key_events (trace (Linux.main env argv)) = [] /\
    Linux.writes (trace (Linux.main env argv)) = [].
Proof.
  intros env argv. unfold Linux.main.
  destruct (Linux.use_uinput _).
  - destruct (Linux.HAVE_UINPUT env).
    + intros H. apply creation_denied_setup_failed in H.
      apply paste_via_uinput_setup_failed in H.
      destruct H as [Hr [Hk [Hw _]]]. now repeat split.
    + unfold Linux.creation_denied. autounfold with linux_prog. cbn.
      intros [].
  - unfold Linux.creation_denied.
    destruct (paste_via_xtest_no_device env
                (Linux.parse_args (tl argv) Linux.initial_options))
      as [-> _].
    intros [].
Qed.

(** C3 on a machine where only device creation is refused. *)
Lemma C3_creation_denied_exits_4_without_keys_witness :
  let env := Linux.sample_env true true Linux.firefox_hint 3
               Linux.creation_refused in
  let argv := ["linux-fast-paste"; "--uinput"] in
  Linux.creation_denied (trace (Linux.main env argv)) /\
  result (Linux.main env argv) = 4 /\
  Linux.key_events (trace (Linux.main env argv)) = [] /\
  Linux.writes (trace (Linux.main env argv)) = [].
Proof.
  intros env argv.
  assert (H : Linux.creation_denied (trace (Linux.main env argv)))
    by (vm_compute; tauto).
  split; [exact H|].
  exact (C3_creation_denied_exits_4_without_keys env argv H).
Defined.

(** C5.  In [paste_via_uinput] every descriptor that [open] returned is
    closed exactly once, by the last call of the run; and whenever one of
    the six setup requests (capability registration, device setup, device
    creation) fails, the function returns the error status 4 with the
    descriptor closed and nothing written to the device. *)
Theorem C5_uinput_descriptor_closed_on_every_path :
  forall (env : Linux.Env) (use_shift : bool),
    let fd := Linux.ans_open env "/dev/uinput" in
    let run := Linux.paste_via_uinput env use_shift in
    Linux.closed (trace run) = Linux.opened (trace run) /\
    (0 <= fd ->
       exists pre, trace run = pre ++ [Linux.Ev.close fd] /\
                   Linux.closed pre = []) /\
    (Linux.setup_failed (trace run) ->
       result run = 4 /\ Linux.key_events (trace run) = [] /\
       Linux.writes (trace run) = [] /\ Linux.closed (trace run) = [fd]) /\
    (forall request,
       In request Linux.setup_requests ->
       0 <= fd -> Linux.ans_ioctl env fd request < 0 ->
       result run = 4 /\ Linux.key_events (trace run) = [] /\
       Linux.writes (trace run) = [] /\ Linux.closed (trace run) = [fd]).
Proof.
  intros env use_shift fd run. subst fd run.
  split; [|split; [|split]].
  - unfold Linux.closed, Linux.opened.
    run_linux; try congruence; reflexivity.
  - intros Hfd. apply Z.ltb_ge in Hfd.
    autounfold with linux_prog. cbn. rewrite Hfd. cbn.
    repeat (case_step; cbn);
      match goal with
      | |- exists pre, ?c :: ?t = _ /\ _ =>
          exists (removelast (c :: t)); split; reflexivity
      end.
  - apply paste_via_uinput_setup_failed.
  - intros request Hin Hfd Hfail.
    apply paste_via_uinput_setup_failed.
    apply Z.ltb_ge in Hfd. apply Z.ltb_lt in Hfail.
    unfold Linux.setup_failed, Linux.failed_ioctls.
    simpl in Hin.
    repeat (destruct Hin as [<- | Hin];
            [ autounfold with linux_prog; cbn; rewrite Hfd; cbn;
              repeat (case_step; cbn); try congruence;
              first [ exists (Linux.UI_SET_EVBIT Linux.EV_KEY); now_failed
                    | exists (Linux.UI_SET_KEYBIT Linux.KEY_LEFTCTRL); now_failed
                    | exists (Linux.UI_SET_KEYBIT Linux.KEY_LEFTSHIFT); now_failed
                    | exists (Linux.UI_SET_KEYBIT Linux.KEY_V); now_failed
                    | exists (Linux.UI_DEV_SETUP Linux.usetup); now_failed
                    | exists Linux.UI_DEV_CREATE; now_failed ] |]).
    destruct Hin.
Qed.

(** C5 on a machine where the last capability request is refused. *)
Lemma C5_uinput_descriptor_closed_on_every_path_witness :
  let env := Linux.sample_env true true Linux.firefox_hint 3
               (fun request =>
                  match request with
                  | Linux.UI_SET_KEYBIT 47 => -1
                  | _ => 0
                  end) in
  let run := Linux.paste_via_uinput env true in
  result run = 4 /\ Linux.key_events (trace run) = [] /\
  Linux.writes (trace run) = [] /\ Linux.closed (trace run) = [3].
Proof.
  intros env run.
  refine (proj2 (proj2 (proj2
            (C5_uinput_descriptor_closed_on_every_path env true)))
            (Linux.UI_SET_KEYBIT Linux.KEY_V) _ _ _).
  - simpl. tauto.
  - vm_compute. discriminate.
  - vm_compute. reflexivity.
Defined.

End VirtualDevice.

(** ** The display-server backend *)

Section DisplayServer.

Import Trace KeySequence.

(** C7.  On the display-server backend (no [--uinput] in effect): when
    the display cannot be opened the run consists of the failed
    [XOpenDisplay] alone and exits with 1; when the display opens but
    [XTestQueryExtension] reports the extension absent, the display is
    closed and the exit status is 2.  Neither run contains a key event. *)
Theorem C7_display_backend_fails_closed :
  forall (env : Linux.Env) (argv : list string),
    Linux.use_uinput (Linux.parse_args (tl argv) Linux.initial_options)
      = false ->
    (Linux.ans_XOpenDisplay env = false ->
       result (Linux.main env argv) = 1 /\
       Linux.key_events (trace (Linux.main env argv)) = [] /\
       trace (Linux.main env argv) = [Linux.Ev.XOpenDisplay None false]) /\
    (Linux.ans_XOpenDisplay env = true ->
     Linux.ans_XTestQueryExtension env = false ->
       result (Linux.main env argv) = 2 /\
       Linux.key_events (trace (Linux.main env argv)) = [] /\
       trace (Linux.main env argv) =
         [Linux.Ev.XOpenDisplay None true;
          Linux.Ev.XTestQueryExtension false;
          Linux.Ev.XCloseDisplay]).
Proof.
  intros env argv Hbackend. unfold Linux.main. rewrite Hbackend.
  split.
  - intros Hd. autounfold with linux_prog. cbn. rewrite Hd. cbn.
    repeat split.
  - intros Hd Hx. autounfold with linux_prog. cbn. rewrite Hd, Hx. cbn.
    repeat split.
Qed.

(** C7 on a display without the XTest extension. *)
Lemma C7_display_backend_fails_closed_witness :
  let env := Linux.sample_env true false Linux.firefox_hint 3
               Linux.all_granted in
  let argv := ["linux-fast-paste"; "--terminal"] in
  result (Linux.main env argv) = 2 /\
  Linux.key_events (trace (Linux.main env argv)) = [] /\
  trace (Linux.main env argv) =
    [Linux.Ev.XOpenDisplay None true;
     Linux.Ev.XTestQueryExtension false;
     Linux.Ev.XCloseDisplay].
Proof.
  intros env argv.
  refine (proj2 (C7_display_backend_fails_closed env argv _) _ _);
    reflexivity.
Defined.

(** C10.  On the display-server backend, with the display open and the
    XTest extension present: when [--terminal] is absent and either no
    window could be resolved or the class hint of the resolved window
    cannot be read, the run issues plain Ctrl+V, exits with 0 and prints
    no diagnostic; and every run of this backend that gets this far exits
    with 0 without a diagnostic, resolved or not. *)
Theorem C10_unresolved_window_is_silent :
  forall (env : Linux.Env) (argv : list string),
    let o := Linux.parse_args (tl argv) Linux.initial_options in
    Linux.use_uinput o = false ->
    Linux.ans_XOpenDisplay env = true ->
    Linux.ans_XTestQueryExtension env = true ->
    (Linux.force_terminal o = false ->
     Linux.resolved_window env o = Linux.XNone \/
     Linux.ans_XGetClassHint env (Linux.resolved_window env o) = None ->
       result (Linux.main env argv) = 0 /\
       Linux.key_events (trace (Linux.main env argv)) =
         map (Linux.xtest_encode env)
           [(Ctrl, Press); (V, Press); (V, Release); (Ctrl, Release)] /\
       Linux.stderr_output (trace (Linux.main env argv)) = []) /\
    result (Linux.main env argv) = 0 /\
    Linux.stderr_output (trace (Linux.main env argv)) = [].
Proof.
  intros env argv o. subst o. unfold Linux.main.
  generalize (Linux.parse_args (tl argv) Linux.initial_options) as o.
  intros [ft uu tw].
  cbn [Linux.use_uinput Linux.force_terminal Linux.target_window].
  intros -> Hd Hx.
  split.
  - intros ->. autounfold with linux_prog. cbn. rewrite Hd, Hx. cbn.
    repeat (case_step; cbn); try congruence.
    all: try (intros _; repeat split; reflexivity).
    all: intros [H | H]; [| discriminate H]; exfalso;
      rewrite H in *; cbn in *; congruence.
  - autounfold with linux_prog. cbn. rewrite Hd, Hx. cbn.
    repeat (case_step; cbn); split; reflexivity.
Qed.

(** C10 on a desktop whose active window has no readable class hint. *)
Lemma C10_unresolved_window_is_silent_witness :
  let env := Linux.sample_env true true None 3 Linux.all_granted in
  let argv := ["linux-fast-paste"] in
  result (Linux.main env argv) = 0 /\
  Linux.key_events (trace (Linux.main env argv)) =
    [(37, true); (55, true); (55, false); (37, false)] /\
  Linux.stderr_output (trace (Linux.main env argv)) = [].
Proof.
  intros env argv.
  refine (proj1 (C10_unresolved_window_is_silent env argv _ _ _) _ _).
  - reflexivity.
  - reflexivity.
  - reflexivity.
  - reflexivity.
  - right. reflexivity.
Defined.

End DisplayServer.

(** ** The Windows helper *)

Section WindowsRuns.

Import Trace KeySequence CString.

Lemma parse_args_sticky (args : list string) :
  Windows.parse_args args true = true.
Proof.
  induction args as [|a args IH]; simpl; [reflexivity|].
  now destruct (streq a "--detect-only").
Qed.

Lemma parse_args_detect_only (args : list string) (d : bool) :
  In "--detect-only" args -> Windows.parse_args args d = true.
Proof.
  revert d. induction args as [|a args IH]; intros d; simpl; [intros []|].
  intros [-> | Hin].
  - cbn. apply parse_args_sticky.
  - destruct (streq a "--detect-only");
      [apply parse_args_sticky | now apply IH].
Qed.

(** C8.  With [--detect-only] among the arguments, a foreground window
    and a non-empty class name, the Windows helper prints the line
    [WINDOW_CLASS <name>] and the line [IS_TERMINAL true] or
    [IS_TERMINAL false] according to [IsTerminalClass], submits nothing to
    the input queue, and exits with 0: its only steps are the resolution
    of the window and the query of its class. *)
Theorem C8_detect_only_prints_and_sends_nothing :
  forall (env : Windows.Env) (argv : list string),
    In "--detect-only" (tl argv) ->
    Windows.ans_GetForegroundWindow env <> 0 ->
    Windows.foreground_class env <> "" ->
    let name := Windows.foreground_class env in
    let t := trace (Windows.main env argv) in
    result (Windows.main env argv) = 0 /\
    Windows.stdout_text t =
      (("WINDOW_CLASS " ++ name ++ nl) ++
       ("IS_TERMINAL " ++
        Windows.bool_text (Windows.IsTerminalClass name) ++ nl))%string /\
    Windows.sent_inputs t = [] /\
    Windows.key_events t = [] /\
    ControlFlow.steps Windows.step_of t =
      [ControlFlow.Resolve; ControlFlow.QueryClass].
Proof.
  intros env argv Hflag Hwnd Hname name t. subst t.
  unfold Windows.main. rewrite (parse_args_detect_only _ _ Hflag).
  apply Z.eqb_neq in Hwnd.
  unfold Windows.GetForegroundWindow.
  cbn [bind call]. rewrite Hwnd.
  unfold Windows.GetClassNameA.
  change (substring 0 (Z.to_nat (256 - 1))
            (Windows.ans_GetClassNameA env
               (Windows.ans_GetForegroundWindow env)))
    with name.
  fold name in Hname. clearbody name.
  destruct name as [|c rest]; [contradiction|].
  autounfold with windows_prog. cbn -[Windows.IsTerminalClass].
  destruct (Windows.IsTerminalClass (String c rest)); cbn;
    repeat split; reflexivity.
Qed.

(** C8 for a console window in the foreground. *)
Lemma C8_detect_only_prints_and_sends_nothing_witness :
  let env := Windows.sample_env "ConsoleWindowClass" in
  let argv := ["windows-fast-paste.exe"; "--detect-only"] in
  let t := trace (Windows.main env argv) in
  result (Windows.main env argv) = 0 /\
  Windows.stdout_text t =
    (("WINDOW_CLASS " ++ "ConsoleWindowClass" ++ nl) ++
     ("IS_TERMINAL " ++ "true" ++ nl))%string /\
  Windows.sent_inputs t = [] /\
  Windows.key_events t = [] /\
  ControlFlow.steps Windows.step_of t =
    [ControlFlow.Resolve; ControlFlow.QueryClass].
Proof.
  intros env argv.
  refine (C8_detect_only_prints_and_sends_nothing env argv _ _ _).
  - simpl. tauto.
  - vm_compute. discriminate.
  - vm_compute. discriminate.
Defined.

End WindowsRuns.

(** ** Control flow *)

Section Flow.

Import Trace KeySequence ControlFlow.

Lemma steps_app {call : Type} (f : call -> option step) (a b : list call) :
  steps f (a ++ b) = steps f a ++ steps f b.
Proof. unfold steps. apply flat_map_app. Qed.

Lemma activation_needs_Activate (env : Linux.Env) (w : Z)
    (t : list Linux.Ev.call) :
  Linux.activation_precedes_keys env w t -> occurs Linux.step_of Activate t.
Proof.
  intros [pre [post [-> _]]]. unfold occurs.
  rewrite !steps_app. apply in_or_app. right. simpl. now left.
Qed.

(** Turn the recorded outcomes of integer tests into (in)equalities. *)
Ltac eqb_facts :=
  unfold Linux.XNone in *;
  repeat match goal with
  | H : negb (?a =? ?b) = true |- _ =>
      apply negb_true_iff in H; apply Z.eqb_neq in H
  | H : negb (?a =? ?b) = false |- _ =>
      apply negb_false_iff in H; apply Z.eqb_eq in H
  | H : (?a =? ?b) = true |- _ => apply Z.eqb_eq in H
  | H : (?a =? ?b) = false |- _ => apply Z.eqb_neq in H
  end.

(** Dispose of the assumption that the run synthesizes: absurd on the
    paths that end early, of no further use on the others. *)
Ltac no_synthesis :=
  let Hs := fresh "Hs" in
  intros Hs;
  first [ solve [exfalso; simpl in Hs; intuition discriminate] | clear Hs ].

Lemma linux_steps_in_order (env : Linux.Env) (argv : list string) :
  in_order (steps Linux.step_of (trace (Linux.main env argv))) = true.
Proof.
  unfold Linux.main.
  generalize (Linux.parse_args (tl argv) Linux.initial_options) as o.
  intros [ft uu tw].
  run_linux; reflexivity.
Qed.

Lemma linux_display_flow (env : Linux.Env) (argv : list string) :
  let o := Linux.parse_args (tl argv) Linux.initial_options in
  let t := trace (Linux.main env argv) in
  Linux.use_uinput o = false ->
  synthesizes Linux.step_of t ->
  (Linux.target_window o = Linux.XNone ->
     precedes_synthesis Linux.step_of Resolve t) /\
  (Linux.target_window o <> Linux.XNone ->
     precedes_synthesis Linux.step_of Activate t) /\
  (Linux.force_terminal o = false ->
   Linux.resolved_window env o <> Linux.XNone ->
     precedes_synthesis Linux.step_of QueryClass t) /\
  (Linux.force_terminal o = true ->
     ~ occurs Linux.step_of QueryClass t) /\
  Linux.key_events t =
    Linux.key_events
      (trace (Linux.fake_paste env
                (result (Linux.classify env (Linux.force_terminal o)
                           (Linux.resolved_window env o))))).
Proof.
  intros o t. subst o t. unfold Linux.main.
  generalize (Linux.parse_args (tl argv) Linux.initial_options) as o.
  intros [ft uu tw].
  cbn [Linux.use_uinput Linux.force_terminal Linux.target_window].
  intros ->.
  unfold synthesizes, precedes_synthesis, occurs.
  destruct ft; destruct (tw =? Linux.XNone) eqn:Htw;
    autounfold with linux_prog; cbn; rewrite ?Htw; cbn;
    repeat (case_step; cbn); try congruence; no_synthesis;
    cbn in *; try congruence; eqb_facts;
    (split; [|split; [|split; [|split]]]);
    intros; try reflexivity; try (simpl; tauto); try lia;
    try (simpl in *; intuition (discriminate || lia)).
Qed.

Lemma linux_uinput_flow (env : Linux.Env) (argv : list string) :
  Linux.use_uinput (Linux.parse_args (tl argv) Linux.initial_options)
    = true ->
  forall s, occurs Linux.step_of s (trace (Linux.main env argv)) ->
            s = Synthesize.
Proof.
  unfold Linux.main. intros ->. unfold occurs.
  run_linux; intros s Hs; simpl in Hs; intuition congruence.
Qed.

Lemma windows_flow (env : Windows.Env) (argv : list string) :
  let t := trace (Windows.main env argv) in
  synthesizes Windows.step_of t ->
  precedes_synthesis Windows.step_of Resolve t /\
  precedes_synthesis Windows.step_of QueryClass t /\
  Windows.key_events t =
    Windows.key_events
      (trace (if Windows.IsTerminalClass (Windows.foreground_class env)
              then Windows.SendPasteTerminal env
              else Windows.SendPasteNormal env)).
Proof.
  intros t. subst t. unfold Windows.main.
  generalize (Windows.parse_args (tl argv) false) as detectOnly.
  intros detectOnly.
  unfold synthesizes, precedes_synthesis, Windows.foreground_class.
  autounfold with windows_prog.
  cbn -[Windows.IsTerminalClass substring].
  repeat (case_step; cbn -[Windows.IsTerminalClass substring]);
    try congruence; no_synthesis; repeat split; simpl; tauto.
Qed.

Lemma no_window_no_activation (env : Linux.Env) (argv : list string) :
  let o := Linux.parse_args (tl argv) Linux.initial_options in
  Linux.use_uinput o = true \/ Linux.target_window o = Linux.XNone ->
  ~ occurs Linux.step_of Activate (trace (Linux.main env argv)).
Proof.
  intros o [Hu | Hw] Hact.
  - apply (linux_uinput_flow env argv Hu) in Hact. discriminate Hact.
  - revert Hw Hact. subst o. unfold Linux.main, occurs.
    generalize (Linux.parse_args (tl argv) Linux.initial_options) as o.
    intros [ft uu tw].
    cbn [Linux.use_uinput Linux.force_terminal Linux.target_window].
    intros ->.
    run_linux; intros Hact; simpl in Hact; intuition discriminate.
Qed.

(** C6 as stated fails on the Linux helper: with [--uinput] keys are
    synthesized although no window is resolved and no class is queried,
    and with [--terminal] they are synthesized without a class query. *)
Lemma C6_counterexample :
  (let t := trace (Linux.main Linux.desktop
                     ["linux-fast-paste"; "--uinput"]) in
   synthesizes Linux.step_of t /\
   ~ precedes_synthesis Linux.step_of Resolve t /\
   ~ precedes_synthesis Linux.step_of QueryClass t) /\
  (let t := trace (Linux.main Linux.desktop
                     ["linux-fast-paste"; "--terminal"]) in
   synthesizes Linux.step_of t /\
   ~ precedes_synthesis Linux.step_of QueryClass t).
Proof.
  split; intros t; vm_compute; intuition discriminate.
Qed.

(** C6, amended.  The steps that a run takes come in the order activate,
    resolve, query class, synthesize.  Every synthesizing run of the
    Windows helper resolves the foreground window and queries its class
    first, and sends the sequence chosen by [IsTerminalClass].  A
    synthesizing run of the Linux display-server backend first activates
    the window given by [--window], or else resolves the active window;
    it queries the class before synthesis when [--terminal] is absent and
    a window was found, and never with [--terminal]; its key events are
    those chosen by the classification.  With [--uinput] the Linux helper
    takes no step but synthesis. *)
Theorem C6_steps_before_synthesis :
  (forall env argv,
     in_order (steps Linux.step_of (trace (Linux.main env argv))) = true) /\
  (forall env argv,
     let t := trace (Windows.main env argv) in
     synthesizes Windows.step_of t ->
     precedes_synthesis Windows.step_of Resolve t /\
     precedes_synthesis Windows.step_of QueryClass t /\
     Windows.key_events t =
       Windows.key_events
         (trace (if Windows.IsTerminalClass (Windows.foreground_class env)
                 then Windows.SendPasteTerminal env
                 else Windows.SendPasteNormal env))) /\
  (forall env argv,
     let o := Linux.parse_args (tl argv) Linux.initial_options in
     let t := trace (Linux.main env argv) in
     Linux.use_uinput o = false ->
     synthesizes Linux.step_of t ->
     (Linux.target_window o = Linux.XNone ->
        precedes_synthesis Linux.step_of Resolve t) /\
     (Linux.target_window o <> Linux.XNone ->
        precedes_synthesis Linux.step_of Activate t) /\
     (Linux.force_terminal o = false ->
      Linux.resolved_window env o <> Linux.XNone ->
        precedes_synthesis Linux.step_of QueryClass t) /\
     (Linux.force_terminal o = true ->
        ~ occurs Linux.step_of QueryClass t) /\
     Linux.key_events t =
       Linux.key_events
         (trace (Linux.fake_paste env
                   (result (Linux.classify env (Linux.force_terminal o)
                              (Linux.resolved_window env o)))))) /\
  (forall env argv,
     Linux.use_uinput (Linux.parse_args (tl argv) Linux.initial_options)
       = true ->
     forall s, occurs Linux.step_of s (trace (Linux.main env argv)) ->
               s = Synthesize).
Proof.
  split; [exact linux_steps_in_order|].
  split; [exact windows_flow|].
  split; [exact linux_display_flow | exact linux_uinput_flow].
Qed.

(** C6, amended, on a desktop with Firefox in front: the active window is
    resolved and its class queried before the first key event. *)
Lemma C6_steps_before_synthesis_witness :
  let t := trace (Linux.main Linux.desktop ["linux-fast-paste"]) in
  precedes_synthesis Linux.step_of Resolve t /\
  precedes_synthesis Linux.step_of QueryClass t.
Proof.
  intros t.
  pose proof (proj1 (proj2 (proj2 C6_steps_before_synthesis))
                Linux.desktop ["linux-fast-paste"]) as H.
  cbv zeta in H.
  assert (Hu : Linux.use_uinput
                 (Linux.parse_args (tl ["linux-fast-paste"])
                    Linux.initial_options) = false) by reflexivity.
  assert (Hs : synthesizes Linux.step_of
                 (trace (Linux.main Linux.desktop ["linux-fast-paste"])))
    by (vm_compute; tauto).
  destruct (H Hu Hs) as [Hr [_ [Hq _]]].
  split.
  - apply Hr. reflexivity.
  - apply Hq; [reflexivity | vm_compute; discriminate].
Defined.

(** C9 as stated fails: [--window 0] names no window and [--uinput]
    bypasses the display server; in both runs keys are synthesized and no
    window has been activated. *)
Lemma C9_counterexample :
  (let argv := ["linux-fast-paste"; "--window"; "0"] in
   Linux.key_events (trace (Linux.main Linux.desktop argv)) <> [] /\
   ~ exists w, Linux.activation_precedes_keys Linux.desktop w
                 (trace (Linux.main Linux.desktop argv))) /\
  (let argv := ["linux-fast-paste"; "--uinput"; "--window"; "0x2400007"] in
   Linux.key_events (trace (Linux.main Linux.desktop argv)) <> [] /\
   ~ exists w, Linux.activation_precedes_keys Linux.desktop w
                 (trace (Linux.main Linux.desktop argv))).
Proof.
  split; intros argv; (split; [vm_compute; discriminate|]);
    intros [w H]; apply activation_needs_Activate in H;
    vm_compute in H; intuition discriminate.
Qed.

(** C9, amended.  On the display-server backend (no [--uinput] in
    effect), when [--window <id>] names a window other than [None] (0),
    every run that synthesizes keys has activated that window before its
    first key event: the [_NET_ACTIVE_WINDOW] client message is sent to
    the root window, the connection is flushed, 50000 microseconds pass,
    and the input focus is set to the window.  With [--uinput], or when
    the id reads as 0, no activation call is made at all.  The id is read
    by [strtoul] with base 0: hexadecimal, octal and decimal are
    accepted. *)
Theorem C9_window_activated_before_keys :
  (forall env argv,
     let o := Linux.parse_args (tl argv) Linux.initial_options in
     let t := trace (Linux.main env argv) in
     Linux.use_uinput o = false ->
     Linux.target_window o <> Linux.XNone ->
     Linux.key_events t <> [] ->
     Linux.activation_precedes_keys env (Linux.target_window o) t) /\
  (forall env argv,
     let o := Linux.parse_args (tl argv) Linux.initial_options in
     Linux.use_uinput o = true \/ Linux.target_window o = Linux.XNone ->
     ~ occurs Linux.step_of Activate (trace (Linux.main env argv))) /\
  Linux.target_window
    (Linux.parse_args ["--window"; "0x2400007"] Linux.initial_options)
    = 37748743 /\
  Linux.target_window
    (Linux.parse_args ["--window"; "010"] Linux.initial_options) = 8 /\
  Linux.target_window
    (Linux.parse_args ["--window"; "42"] Linux.initial_options) = 42.
Proof.
  split; [|split; [exact no_window_no_activation | repeat split; reflexivity]].
  intros env argv o t. subst o t. unfold Linux.main.
  generalize (Linux.parse_args (tl argv) Linux.initial_options) as o.
  intros [ft uu tw].
  cbn [Linux.use_uinput Linux.force_terminal Linux.target_window].
  intros -> Htw. apply Z.eqb_neq in Htw.
  autounfold with linux_prog. cbn. rewrite !Htw. cbn.
  repeat (case_step; cbn); try congruence.
  all: try (intros H; now destruct H).
  all: intros _;
    match goal with
    | |- Linux.activation_precedes_keys _ _ (?a :: ?b :: ?c :: _) =>
        exists [a; b; c]; eexists; split; reflexivity
    end.
Qed.

(** C9, amended, for [--window 0x2400007] on the sample desktop. *)
Lemma C9_window_activated_before_keys_witness :
  let argv := ["linux-fast-paste"; "--window"; "0x2400007"] in
  Linux.activation_precedes_keys Linux.desktop 37748743
    (trace (Linux.main Linux.desktop argv)).
Proof.
  intros argv.
  refine (proj1 C9_window_activated_before_keys Linux.desktop argv _ _ _).
  - reflexivity.
  - vm_compute. discriminate.
  - vm_compute. discriminate.
Defined.

End Flow.

(** * Further properties of the code *)

(** ** More on the classifiers *)

Section MoreClassifiers.

Import CString CStringFacts.

Lemma append_assoc (a b c : string) :
  ((a ++ b) ++ c)%string = (a ++ b ++ c)%string.
Proof. induction a as [|x a IH]; simpl; [reflexivity | now rewrite IH]. Qed.

Lemma append_nil_r (a : string) : (a ++ "")%string = a.
Proof. induction a as [|x a IH]; simpl; [reflexivity | now rewrite IH]. Qed.

Lemma contains_ci_refl (t : string) : contains_ci t t.
Proof. exists "", "". simpl. now rewrite append_nil_r. Qed.

Lemma contains_ci_context (pre s post t : string) :
  contains_ci s t -> contains_ci (pre ++ s ++ post) t.
Proof.
  intros [p [q H]].
  exists (lower pre ++ p)%string, (q ++ lower post)%string.
  rewrite !lower_app, H, !append_assoc. reflexivity.
Qed.

(** X1.  [is_terminal] looks only at the lower-cased string, keeps
    answering true when text is put before or after a name it accepts,
    and accepts every entry of its own registry. *)
Theorem X1_is_terminal_case_blind_and_context_closed :
  (forall s s', lower s = lower s' ->
     Linux.is_terminal (Some s) = Linux.is_terminal (Some s')) /\
  (forall pre s post,
     Linux.is_terminal (Some s) = true ->
     Linux.is_terminal (Some (pre ++ s ++ post)%string) = true) /\
  (forall t, In t Linux.terminal_classes ->
     Linux.is_terminal (Some t) = true).
Proof.
  split; [|split].
  - intros s s' H. apply Bool.eq_iff_eq_true. unfold Linux.is_terminal.
    rewrite !is_terminal_from_spec. unfold contains_ci. now rewrite H.
  - intros pre s post H. unfold Linux.is_terminal in *.
    apply is_terminal_from_spec in H. destruct H as [t [Hin Hc]].
    apply is_terminal_from_spec. exists t.
    split; [exact Hin | now apply contains_ci_context].
  - intros t Hin. apply is_terminal_from_spec. exists t.
    split; [exact Hin | apply contains_ci_refl].
Qed.

(** X1 for a class name built around an accepted one. *)
Lemma X1_is_terminal_case_blind_and_context_closed_witness :
  Linux.is_terminal (Some ("org." ++ "XTerm" ++ ".desktop")%string) = true.
Proof.
  apply (proj1 (proj2 X1_is_terminal_case_blind_and_context_closed)).
  reflexivity.
Defined.

(** X2.  [IsTerminalClass] looks only at the lower-cased name and accepts
    every entry of its registry, but no entry with text appended: unlike
    the Linux classifier it is not closed under extension. *)
Theorem X2_IsTerminalClass_case_blind_not_extension_closed :
  (forall s s', lower s = lower s' ->
     Windows.IsTerminalClass s = Windows.IsTerminalClass s') /\
  (forall t, In t Windows.TERMINAL_CLASSES ->
     Windows.IsTerminalClass t = true) /\
  (forall t c rest, In t Windows.TERMINAL_CLASSES ->
     Windows.IsTerminalClass (t ++ String c rest)%string = false).
Proof.
  split; [|split].
  - intros s s' H. apply Bool.eq_iff_eq_true. unfold Windows.IsTerminalClass.
    rewrite !IsTerminalClass_from_spec. unfold equal_ci. now rewrite H.
  - intros t Hin. apply IsTerminalClass_from_spec. exists t.
    split; [exact Hin | reflexivity].
  - intros t c rest Hin. simpl in Hin.
    repeat (destruct Hin as [<- | Hin]; [reflexivity|]).
    destruct Hin.
Qed.

(** X2 for a console class name in capitals. *)
Lemma X2_IsTerminalClass_case_blind_not_extension_closed_witness :
  Windows.IsTerminalClass "CONSOLEWINDOWCLASS" =
  Windows.IsTerminalClass "ConsoleWindowClass".
Proof.
  apply (proj1 X2_IsTerminalClass_case_blind_not_extension_closed).
  reflexivity.
Defined.

End MoreClassifiers.
(** ** Command lines *)

Section CommandLines.

Import CString.

Lemma streq_eq (a b : string) : streq a b = true <-> a = b.
Proof. apply String.eqb_eq. Qed.

(** Facts about [Linux.parse_args] that hold for argument lists of every
    length, proved for all lists up to a bound. *)
Lemma linux_parse_args_bounded (n : nat) :
  forall args o, (List.length args <= n)%nat ->
    (Linux.force_terminal o = true ->
       Linux.force_terminal (Linux.parse_args args o) = true) /\
    (Linux.use_uinput o = true ->
       Linux.use_uinput (Linux.parse_args args o) = true) /\
    (Linux.force_terminal (Linux.parse_args args o) = true ->
       Linux.force_terminal o = true \/ In "--terminal" args) /\
    (Linux.use_uinput (Linux.parse_args args o) = true ->
       Linux.use_uinput o = true \/ In "--uinput" args).
Proof.
  induction n as [|n IH]; intros args o Hlen.
  - destruct args; [|simpl in Hlen; lia]. simpl. tauto.
  - destruct args as [|arg rest]; [simpl; tauto|].
    simpl in Hlen. simpl.
    destruct (streq arg "--terminal") eqn:Et.
    { apply streq_eq in Et. subst arg.
      destruct (IH rest {| Linux.force_terminal := true;
                           Linux.use_uinput := Linux.use_uinput o;
                           Linux.target_window := Linux.target_window o |})
        as [H1 [H2 [H3 H4]]]; [lia|]. simpl in *.
      repeat split; auto. intros H. destruct (H4 H); tauto. }
    destruct (streq arg "--uinput") eqn:Eu.
    { apply streq_eq in Eu. subst arg.
      destruct (IH rest {| Linux.force_terminal := Linux.force_terminal o;
                           Linux.use_uinput := true;
                           Linux.target_window := Linux.target_window o |})
        as [H1 [H2 [H3 H4]]]; [lia|]. simpl in *.
      repeat split; auto. intros H. destruct (H3 H); tauto. }
    destruct (streq arg "--window") eqn:Ew.
    { destruct rest as [|id rest']; [tauto|].
      simpl in Hlen.
      destruct (IH rest' {| Linux.force_terminal := Linux.force_terminal o;
                            Linux.use_uinput := Linux.use_uinput o;
                            Linux.target_window := Stdlib_h.strtoul0 id |})
        as [H1 [H2 [H3 H4]]]; [lia|]. simpl in *.
      repeat split; auto.
      - intros H. destruct (H3 H); tauto.
      - intros H. destruct (H4 H); tauto. }
    destruct (IH rest o) as [H1 [H2 [H3 H4]]]; [lia|].
    repeat split; auto.
    + intros H. destruct (H3 H); tauto.
    + intros H. destruct (H4 H); tauto.
Qed.

Lemma linux_parse_args_no_window (args : list string) :
  forall o, ~ In "--window" args ->
    Linux.target_window (Linux.parse_args args o) = Linux.target_window o /\
    (In "--terminal" args ->
       Linux.force_terminal (Linux.parse_args args o) = true) /\
    (In "--uinput" args ->
       Linux.use_uinput (Linux.parse_args args o) = true).
Proof.
  induction args as [|arg rest IH]; intros o Hnw.
  - simpl. tauto.
  - assert (Hrest : ~ In "--window" rest) by (intros H; apply Hnw; now right).
    assert (Harg : arg <> "--window") by (intros ->; apply Hnw; now left).
    simpl.
    destruct (streq arg "--terminal") eqn:Et.
    { destruct (IH {| Linux.force_terminal := true;
                      Linux.use_uinput := Linux.use_uinput o;
                      Linux.target_window := Linux.target_window o |} Hrest)
        as [H1 [H2 H3]].
      split; [exact H1|]. split.
      - intros _.
        apply (proj1 (linux_parse_args_bounded (List.length rest) rest _
                        (Nat.le_refl _))). reflexivity.
      - intros [-> | H]; [discriminate Et | now apply H3]. }
    destruct (streq arg "--uinput") eqn:Eu.
    { destruct (IH {| Linux.force_terminal := Linux.force_terminal o;
                      Linux.use_uinput := true;
                      Linux.target_window := Linux.target_window o |} Hrest)
        as [H1 [H2 H3]].
      split; [exact H1|]. split.
      - intros [-> | H]; [discriminate Eu | now apply H2].
      - intros _.
        apply (proj1 (proj2 (linux_parse_args_bounded (List.length rest) rest
                               _ (Nat.le_refl _)))). reflexivity. }
    destruct (streq arg "--window") eqn:Ew.
    { apply streq_eq in Ew. contradiction. }
    destruct (IH o Hrest) as [H1 [H2 H3]].
    split; [exact H1|]. split.
    + intros [-> | H]; [discriminate Et | now apply H2].
    + intros [-> | H]; [discriminate Eu | now apply H3].
Qed.

(** X3.  The argument loop of the Linux helper never resets a flag, sets
    a flag only if the flag's word occurs among the arguments, and — when
    no [--window] occurs, so that no argument is consumed as a window id
    — sets a flag exactly when its word occurs and leaves the target
    window untouched. *)
Theorem X3_linux_flags_follow_arguments :
  forall (args : list string) (o : Linux.options),
    (Linux.force_terminal o = true ->
       Linux.force_terminal (Linux.parse_args args o) = true) /\
    (Linux.use_uinput o = true ->
       Linux.use_uinput (Linux.parse_args args o) = true) /\
    (Linux.force_terminal (Linux.parse_args args o) = true ->
       Linux.force_terminal o = true \/ In "--terminal" args) /\
    (Linux.use_uinput (Linux.parse_args args o) = true ->
       Linux.use_uinput o = true \/ In "--uinput" args) /\
    (~ In "--window" args ->
       Linux.target_window (Linux.parse_args args o) = Linux.target_window o /\
       (In "--terminal" args ->
          Linux.force_terminal (Linux.parse_args args o) = true) /\
       (In "--uinput" args ->
          Linux.use_uinput (Linux.parse_args args o) = true)).
Proof.
  intros args o.
  destruct (linux_parse_args_bounded (List.length args) args o (Nat.le_refl _))
    as [H1 [H2 [H3 H4]]].
  split; [exact H1|]. split; [exact H2|]. split; [exact H3|].
  split; [exact H4|].
  intros Hnw. exact (linux_parse_args_no_window args o Hnw).
Qed.

(** X3 for the arguments [--terminal extra --uinput]. *)
Lemma X3_linux_flags_follow_arguments_witness :
  let args := ["--terminal"; "extra"; "--uinput"] in
  Linux.target_window (Linux.parse_args args Linux.initial_options) = 0 /\
  (In "--terminal" args ->
     Linux.force_terminal (Linux.parse_args args Linux.initial_options)
       = true) /\
  (In "--uinput" args ->
     Linux.use_uinput (Linux.parse_args args Linux.initial_options) = true).
Proof.
  intros args.
  refine (proj2 (proj2 (proj2 (proj2
            (X3_linux_flags_follow_arguments args Linux.initial_options)))) _).
  simpl. intros H. repeat (destruct H as [H | H]; [discriminate H|]).
  exact H.
Defined.

Lemma windows_parse_args_spec (args : list string) (d : bool) :
  Windows.parse_args args d = true <-> d = true \/ In "--detect-only" args.
Proof.
  revert d. induction args as [|arg rest IH]; intros d; simpl.
  - tauto.
  - destruct (streq arg "--detect-only") eqn:E.
    + apply streq_eq in E. rewrite IH. tauto.
    + rewrite IH. split; [tauto|].
      intros [H | [H | H]]; auto.
      subst arg. cbn in E. discriminate E.
Qed.

(** X4.  The Windows helper runs in detect-only mode exactly when
    [--detect-only] occurs among [argv[1..]]; nothing else on the command
    line matters: two command lines that agree on this give the same
    run. *)
Theorem X4_windows_arguments_only_detect_only :
  (forall args, Windows.parse_args args false = true <->
                In "--detect-only" args) /\
  (forall env argv argv',
     (In "--detect-only" (tl argv) <-> In "--detect-only" (tl argv')) ->
     Windows.main env argv = Windows.main env argv').
Proof.
  assert (H : forall args, Windows.parse_args args false = true <->
                           In "--detect-only" args).
  { intros args. rewrite windows_parse_args_spec.
    split; [intros [K | K]; [discriminate K | exact K] | now right]. }
  split; [exact H|].
  intros env argv argv' Hiff. unfold Windows.main.
  replace (Windows.parse_args (tl argv') false)
    with (Windows.parse_args (tl argv) false); [reflexivity|].
  apply Bool.eq_iff_eq_true. rewrite !H. exact Hiff.
Qed.

(** X4 for two command lines without the flag. *)
Lemma X4_windows_arguments_only_detect_only_witness :
  Windows.main (Windows.sample_env "mintty") ["paste.exe"; "--verbose"] =
  Windows.main (Windows.sample_env "mintty") ["paste.exe"].
Proof.
  apply (proj2 X4_windows_arguments_only_detect_only).
  simpl. split; intros H.
  - destruct H as [H | H]; [discriminate H | exact H].
  - destruct H.
Defined.

End CommandLines.
(** ** More on the Linux helper *)

Section MoreLinux.

Import Trace KeySequence ControlFlow.

(** Turn recorded outcomes of tests into facts [lia] and [congruence]
    understand. *)
Ltac test_facts :=
  unfold Linux.XNone, Linux.Success in *;
  repeat match goal with
  | H : negb _ = true |- _ => apply negb_true_iff in H
  | H : negb _ = false |- _ => apply negb_false_iff in H
  | H : (_ =? _) = true |- _ => apply Z.eqb_eq in H
  | H : (_ =? _) = false |- _ => apply Z.eqb_neq in H
  | H : (_ <? _) = true |- _ => apply Z.ltb_lt in H
  | H : (_ <? _) = false |- _ => apply Z.ltb_ge in H
  end.

(** X5.  [get_active_window] returns the window stored in the root
    window's [_NET_ACTIVE_WINDOW] property when the atom exists, the query
    succeeds with data, at least one item, and that item is not [None];
    in every other case it returns what [XGetInputFocus] reports, which it
    asks only then.  The property data is freed exactly when a successful
    query returned some, and the function performs nothing but
    resolution. *)
Theorem X5_get_active_window_prefers_property :
  forall (env : Linux.Env),
    let atom := Linux.ans_XInternAtom env "_NET_ACTIVE_WINDOW" true in
    let reply :=
      Linux.ans_XGetWindowProperty env (Linux.DefaultRootWindow env) atom in
    let run := Linux.get_active_window env in
    (forall w,
       atom <> Linux.XNone -> Linux.pr_status reply = Linux.Success ->
       Linux.pr_data reply = Some w -> 0 < Linux.pr_nitems reply ->
       w <> Linux.XNone ->
       result run = w /\ Linux.focus_queries (trace run) = 0%nat) /\
    (atom = Linux.XNone \/ Linux.pr_status reply <> Linux.Success \/
     Linux.pr_data reply = None \/ Linux.pr_nitems reply <= 0 \/
     Linux.pr_data reply = Some Linux.XNone ->
       result run = Linux.ans_XGetInputFocus env /\
       Linux.focus_queries (trace run) = 1%nat) /\
    (Linux.frees (trace run) = 1%nat <->
       atom <> Linux.XNone /\ Linux.pr_status reply = Linux.Success /\
       Linux.pr_data reply <> None) /\
    (Linux.frees (trace run) <= 1)%nat /\
    Linux.key_events (trace run) = [] /\
    (forall s, occurs Linux.step_of s (trace run) -> s = Resolve).
Proof.
  intros env atom reply run. subst atom reply run.
  unfold occurs.
  split; [|split; [|split; [|split; [|split]]]].
  - intros w Ha Hs Hd Hn Hw.
    apply Z.eqb_neq in Ha, Hw. apply Z.eqb_eq in Hs. apply Z.ltb_lt in Hn.
    autounfold with linux_prog. cbn. rewrite Ha. cbn. rewrite Hd, Hs, Hn.
    cbn. rewrite Hw. cbn. split; reflexivity.
  - intros H. run_linux; test_facts; try (split; reflexivity); exfalso;
      repeat (destruct H as [H | H]); try congruence; try lia.
  - run_linux; test_facts; (split; [intros H | intros [H1 [H2 H3]]]);
      try reflexivity; try discriminate; try congruence;
      repeat split; try congruence; try lia.
  - run_linux; simpl; lia.
  - run_linux; reflexivity.
  - run_linux; intros s Hs; simpl in Hs; intuition congruence.
Qed.

(** X5 on the sample desktop, whose property names window 0x2400007. *)
Lemma X5_get_active_window_prefers_property_witness :
  result (Linux.get_active_window Linux.desktop) = 37748743 /\
  Linux.focus_queries (trace (Linux.get_active_window Linux.desktop)) = 0%nat.
Proof.
  refine (proj1 (X5_get_active_window_prefers_property Linux.desktop)
            37748743 _ _ _ _ _);
    try reflexivity; vm_compute; discriminate.
Defined.

(** How a statement about [main] becomes one about the parsed options. *)
Ltac on_options ft uu tw :=
  unfold Linux.main;
  match goal with
  | |- context [Linux.parse_args ?args Linux.initial_options] =>
      generalize (Linux.parse_args args Linux.initial_options)
  end;
  intros [ft uu tw];
  cbn [Linux.use_uinput Linux.force_terminal Linux.target_window].

Lemma classify_result (env : Linux.Env) (ft : bool) (win : Z) :
  result (Linux.classify env ft win) = true <->
  ft = true \/
  (win <> Linux.XNone /\
   exists h, Linux.ans_XGetClassHint env win = Some h /\
     (Linux.is_terminal (Linux.res_class h) = true \/
      Linux.is_terminal (Linux.res_name h) = true)).
Proof.
  unfold Linux.classify. destruct ft; cbn.
  - split; [now left | reflexivity].
  - destruct (Z.eqb_spec win Linux.XNone) as [E | E]; cbn.
    + split; [discriminate|]. intros [H | [H _]]; [discriminate H | contradiction].
    + autounfold with linux_prog. cbn.
      destruct (Linux.ans_XGetClassHint env win) as [h|]; cbn.
      * rewrite orb_true_iff. split.
        -- intros H. right. split; [exact E|]. now exists h.
        -- intros [H | [_ [h' [[= <-] H]]]]; [discriminate H | exact H].
      * split; [discriminate|].
        intros [H | [_ [h' [H _]]]]; discriminate H.
Qed.

Lemma display_run_length (env : Linux.Env) (o : Linux.options) :
  Linux.ans_XOpenDisplay env = true ->
  Linux.ans_XTestQueryExtension env = true ->
  List.length (Linux.key_events (trace (Linux.paste_via_xtest env o))) =
    (if result (Linux.classify env (Linux.force_terminal o)
                  (Linux.resolved_window env o))
     then 6%nat else 4%nat).
Proof.
  destruct o as [ft uu tw]. intros Hd Hx.
  autounfold with linux_prog. cbn. rewrite Hd, Hx. cbn.
  repeat (case_step; cbn); cbn in *; congruence.
Qed.

(** X6.  Which variant is struck.  On the display-server backend, once
    the display is open and XTest present, the run issues six key events
    (Ctrl+Shift+V) exactly when [--terminal] was given or the resolved
    window is not [None] and its class hint is readable with a class or
    instance name that [is_terminal] accepts; otherwise it issues four
    (Ctrl+V).  A successful run of the virtual-device backend issues six
    exactly when [--terminal] was given. *)
Theorem X6_variant_selection :
  forall (env : Linux.Env) (argv : list string),
    let o := Linux.parse_args (tl argv) Linux.initial_options in
    let t := trace (Linux.main env argv) in
    (Linux.use_uinput o = false ->
     Linux.ans_XOpenDisplay env = true ->
     Linux.ans_XTestQueryExtension env = true ->
       (List.length (Linux.key_events t) = 6%nat <->
          Linux.force_terminal o = true \/
          (Linux.resolved_window env o <> Linux.XNone /\
           exists h,
             Linux.ans_XGetClassHint env (Linux.resolved_window env o)
               = Some h /\
             (Linux.is_terminal (Linux.res_class h) = true \/
              Linux.is_terminal (Linux.res_name h) = true))) /\
       (List.length (Linux.key_events t) = 6%nat \/
        List.length (Linux.key_events t) = 4%nat)) /\
    (Linux.use_uinput o = true ->
     result (Linux.main env argv) = 0 ->
       List.length (Linux.key_events t) =
         (if Linux.force_terminal o then 6%nat else 4%nat)).
Proof.
  intros env argv o t. subst t. unfold Linux.main. fold o.
  split.
  - intros Hu Hd Hx. rewrite Hu.
    rewrite (display_run_length env o Hd Hx).
    rewrite <- classify_result.
    destruct (result (Linux.classify env _ _)).
    + split; [tauto | now left].
    + split; [split; discriminate | now right].
  - intros Hu. rewrite Hu. destruct o as [ft uu tw].
    cbn [Linux.force_terminal].
    run_linux; try discriminate; intros _; reflexivity.
Qed.

(** X6 for a terminal emulator in front. *)
Lemma X6_variant_selection_witness :
  let env := Linux.sample_env true true
               (Some {| Linux.res_name := Some "xterm";
                        Linux.res_class := Some "XTerm" |})
               3 Linux.all_granted in
  let argv := ["linux-fast-paste"] in
  List.length (Linux.key_events (trace (Linux.main env argv))) = 6%nat.
Proof.
  intros env argv.
  refine (proj2 (proj1 (proj1 (X6_variant_selection env argv) _ _ _)) _);
    try reflexivity.
  right. split; [vm_compute; discriminate|].
  eexists. split; [reflexivity|]. left. reflexivity.
Defined.

(** X7.  The display connection is closed as often as it was opened, in
    every run; and when the display-server backend has opened it, closing
    it is the very last call, whatever happened in between. *)
Theorem X7_display_closed_last :
  forall (env : Linux.Env) (argv : list string),
    let o := Linux.parse_args (tl argv) Linux.initial_options in
    let t := trace (Linux.main env argv) in
    Linux.displays_closed t = Linux.displays_opened t /\
    (Linux.use_uinput o = false -> Linux.ans_XOpenDisplay env = true ->
       exists pre, t = pre ++ [Linux.Ev.XCloseDisplay] /\
                   Linux.displays_closed pre = 0%nat).
Proof.
  intros env argv o t. subst o t. on_options ft uu tw.
  split.
  - unfold Linux.displays_closed, Linux.displays_opened.
    run_linux; cbn in *; try discriminate; try congruence; reflexivity.
  - intros -> Hd. autounfold with linux_prog. cbn. rewrite Hd. cbn.
    repeat (case_step; cbn);
      match goal with
      | |- exists pre, ?c :: ?t = _ /\ _ =>
          exists (removelast (c :: t)); split; reflexivity
      end.
Qed.

(** X7 on the sample desktop. *)
Lemma X7_display_closed_last_witness :
  exists pre,
    trace (Linux.main Linux.desktop ["linux-fast-paste"]) =
      pre ++ [Linux.Ev.XCloseDisplay] /\
    Linux.displays_closed pre = 0%nat.
Proof.
  refine (proj2 (X7_display_closed_last Linux.desktop ["linux-fast-paste"])
            _ _); reflexivity.
Defined.

(** Split a conjunction of facts without entering its equivalences. *)
Ltac conjuncts :=
  repeat match goal with |- _ /\ _ => split end.

Ltac ground := intuition (discriminate || congruence || lia).

Lemma exit_status_display (env : Linux.Env) (o : Linux.options) :
  let r := result (Linux.paste_via_xtest env o) in
  let t := trace (Linux.paste_via_xtest env o) in
  (r = 0 <-> Linux.key_events t <> []) /\
  (r = 1 <-> Linux.ans_XOpenDisplay env = false) /\
  (r = 2 <-> Linux.ans_XOpenDisplay env = true /\
             Linux.ans_XTestQueryExtension env = false) /\
  r <> 3 /\ r <> 4 /\ Linux.stderr_output t = [].
Proof.
  destruct o as [ft uu tw]. unfold Linux.stderr_output.
  run_linux; test_facts; conjuncts; ground.
Qed.

Lemma exit_status_uinput (env : Linux.Env) (b : bool) :
  let r := result (Linux.paste_via_uinput env b) in
  let t := trace (Linux.paste_via_uinput env b) in
  (r = 0 <-> Linux.key_events t <> []) /\
  (r = 3 <-> Linux.ans_open env "/dev/uinput" < 0) /\
  (r = 4 -> Linux.setup_failed t) /\
  r <> 1 /\ r <> 2 /\
  (Linux.stderr_output t <> [] <-> r = 3).
Proof.
  unfold Linux.stderr_output, Linux.setup_failed, Linux.failed_ioctls.
  run_linux; try congruence; test_facts; conjuncts;
    try (intros _; eexists; split; [simpl; left; reflexivity | reflexivity]);
    ground.
Qed.

(** X8.  The exit status of the Linux helper.  It is 0 exactly when key
    events were issued; 1 exactly when the display-server backend could
    not open the display; 2 exactly when the display opened without
    XTest; 3 exactly when the virtual-device backend was asked for but is
    not compiled in or [open] failed; 4 exactly when a setup request of
    the device failed.  A diagnostic is written to the error stream
    exactly in the runs that end with 3. *)
Theorem X8_linux_exit_status :
  forall (env : Linux.Env) (argv : list string),
    let o := Linux.parse_args (tl argv) Linux.initial_options in
    let r := result (Linux.main env argv) in
    let t := trace (Linux.main env argv) in
    (r = 0 <-> Linux.key_events t <> []) /\
    (r = 1 <-> Linux.use_uinput o = false /\
               Linux.ans_XOpenDisplay env = false) /\
    (r = 2 <-> Linux.use_uinput o = false /\
               Linux.ans_XOpenDisplay env = true /\
               Linux.ans_XTestQueryExtension env = false) /\
    (r = 3 <-> Linux.use_uinput o = true /\
               (Linux.HAVE_UINPUT env = false \/
                Linux.ans_open env "/dev/uinput" < 0)) /\
    (r = 4 <-> Linux.setup_failed t) /\
    (Linux.stderr_output t <> [] <-> r = 3) /\
    0 <= r <= 4.
Proof.
  intros env argv o r t. subst o r t. unfold Linux.main.
  generalize (Linux.parse_args (tl argv) Linux.initial_options) as o.
  intros o.
  destruct (Linux.use_uinput o) eqn:Hu;
    [destruct (Linux.HAVE_UINPUT env) eqn:Hh|].
  - pose proof (exit_status_uinput env (Linux.force_terminal o)) as H.
    pose proof (paste_via_uinput_setup_failed env (Linux.force_terminal o))
      as Hs.
    pose proof (paste_via_uinput_keys env (Linux.force_terminal o)) as Hk.
    cbv zeta in H.
    set (r := result (Linux.paste_via_uinput env (Linux.force_terminal o)))
      in *.
    set (t := trace (Linux.paste_via_uinput env (Linux.force_terminal o)))
      in *.
    assert (Hrange : 0 <= r <= 4).
    { subst r. run_linux; lia. }
    conjuncts; ground.
  - unfold Linux.setup_failed, Linux.failed_ioctls, Linux.stderr_output.
    autounfold with linux_prog. cbn.
    conjuncts; try ground.
    split; [discriminate|]. intros [request [[] _]].
  - pose proof (exit_status_display env o) as H.
    pose proof (paste_via_xtest_no_device env o) as [Hf _].
    cbv zeta in H.
    set (r := result (Linux.paste_via_xtest env o)) in *.
    set (t := trace (Linux.paste_via_xtest env o)) in *.
    assert (Hrange : 0 <= r <= 4).
    { subst r. destruct o as [ft uu tw]. run_linux; lia. }
    assert (Hnf : ~ Linux.setup_failed t).
    { unfold Linux.setup_failed. rewrite Hf. intros [request [[] _]]. }
    conjuncts; ground.
Qed.

(** X9.  Time spent sleeping.  A run that ends with status 0 sleeps 94 ms
    in all on the virtual-device backend and 44 ms on the display-server
    backend, plus 70 ms there when a window is activated; a run that ends
    with any other status returns without having slept at all. *)
Theorem X9_linux_sleep_budget :
  forall (env : Linux.Env) (argv : list string),
    let o := Linux.parse_args (tl argv) Linux.initial_options in
    let r := result (Linux.main env argv) in
    let t := trace (Linux.main env argv) in
    (r = 0 ->
       Linux.slept t =
         if Linux.use_uinput o then 94000
         else 44000 + (if Linux.target_window o =? Linux.XNone
                       then 0 else 70000)) /\
    (r <> 0 -> Linux.slept t = 0).
Proof.
  intros env argv o r t. subst o r t. on_options ft uu tw.
  destruct uu; [|destruct (tw =? Linux.XNone) eqn:Htw];
    autounfold with linux_prog; cbn -[Linux.slept Z.add];
    rewrite ?Htw; cbn -[Linux.slept Z.add];
    repeat (case_step; cbn -[Linux.slept Z.add]);
    (split; intros H);
    try discriminate H; try (now destruct H); vm_compute; reflexivity.
Qed.

(** X9 on the sample desktop with a window to activate. *)
Lemma X9_linux_sleep_budget_witness :
  Linux.slept
    (trace (Linux.main Linux.desktop
              ["linux-fast-paste"; "--window"; "0x2400007"])) = 114000.
Proof.
  refine (proj1 (X9_linux_sleep_budget Linux.desktop
                   ["linux-fast-paste"; "--window"; "0x2400007"]) _).
  reflexivity.
Defined.

(** X16.  What the display calls are aimed at.  In every run the class
    hint is asked only of the resolved window, only when that window is
    not [None] and [--terminal] is absent; the input focus is set only to
    the [--window] target; and the only event sent goes to the root window
    and names the [--window] target. *)
Theorem X16_display_calls_target_resolved_window :
  forall (env : Linux.Env) (argv : list string),
    let o := Linux.parse_args (tl argv) Linux.initial_options in
    let t := trace (Linux.main env argv) in
    (forall w hint, In (Linux.Ev.XGetClassHint w hint) t ->
       w = Linux.resolved_window env o /\ w <> Linux.XNone /\
       Linux.force_terminal o = false /\
       hint = Linux.ans_XGetClassHint env w) /\
    (forall focus revert_to time,
       In (Linux.Ev.XSetInputFocus focus revert_to time) t ->
       focus = Linux.target_window o /\ focus <> Linux.XNone) /\
    (forall w propagate mask event,
       In (Linux.Ev.XSendEvent w propagate mask event) t ->
       w = Linux.DefaultRootWindow env /\
       Linux.xclient_window event = Linux.target_window o /\
       Linux.target_window o <> Linux.XNone).
Proof.
  intros env argv o t. subst o t. on_options ft uu tw.
  split; [|split].
  - destruct ft; run_linux; cbn in *; test_facts;
      intros w hint Hin; simpl in Hin;
      repeat (destruct Hin as [Hin | Hin];
              [first [ discriminate Hin
                     | injection Hin as <- <-; repeat split; congruence ] |]);
      destruct Hin.
  - run_linux; test_facts; intros focus revert_to time Hin; simpl in Hin;
      repeat (destruct Hin as [Hin | Hin];
              [first [ discriminate Hin
                     | injection Hin as <- _ _; split; congruence ] |]);
      destruct Hin.
  - run_linux; test_facts; intros w propagate mask event Hin; simpl in Hin;
      repeat (destruct Hin as [Hin | Hin];
              [first [ discriminate Hin
                     | injection Hin as <- _ _ <-; repeat split; congruence ]
              |]);
      destruct Hin.
Qed.

(** X16 for the class query of the sample desktop. *)
Lemma X16_display_calls_target_resolved_window_witness :
  37748743 = Linux.resolved_window Linux.desktop
               (Linux.parse_args (tl ["linux-fast-paste"])
                  Linux.initial_options).
Proof.
  refine (proj1 (proj1 (X16_display_calls_target_resolved_window
                          Linux.desktop ["linux-fast-paste"])
                   37748743 Linux.firefox_hint _)).
  vm_compute. tauto.
Defined.

End MoreLinux.
(** ** More on the virtual-device backend *)

Section MoreVirtualDevice.

Import Trace KeySequence ControlFlow.

(** X10.  In [paste_via_uinput] every key record written to the device
    is followed at once by a [SYN_REPORT] record and nothing else is ever
    written; every request and every record goes to the descriptor that
    [open] returned. *)
Theorem X10_uinput_key_then_sync :
  forall (env : Linux.Env) (use_shift : bool),
    let t := trace (Linux.paste_via_uinput env use_shift) in
    Linux.writes t =
      flat_map (fun e => [Linux.key_record e; Linux.syn_report])
               (Linux.key_events t) /\
    (forall fd, In fd (Linux.device_targets t) ->
                fd = Linux.ans_open env "/dev/uinput").
Proof.
  intros env use_shift t. subst t. split.
  - run_linux; reflexivity.
  - unfold Linux.device_targets.
    run_linux; intros fd Hfd; simpl in Hfd;
      repeat (destruct Hfd as [Hfd | Hfd]; [now symmetry|]);
      destruct Hfd.
Qed.

(** X10 on a machine that grants everything: descriptor 3 throughout. *)
Lemma X10_uinput_key_then_sync_witness :
  3 = Linux.ans_open Linux.desktop "/dev/uinput".
Proof.
  refine (proj2 (X10_uinput_key_then_sync Linux.desktop true) 3 _).
  vm_compute. tauto.
Defined.

(** X11.  The requests of [paste_via_uinput] follow the fixed order
    event bit, three key bits, device setup, device creation, device
    destruction, and stop at the first setup request that fails: the
    requests issued are an initial segment of that list, and a failed
    setup request is the last one issued.  Records are written only after
    all six setup requests have succeeded, and the device is destroyed
    exactly in the runs that return 0. *)
Theorem X11_uinput_setup_order :
  forall (env : Linux.Env) (use_shift : bool),
    let r := result (Linux.paste_via_uinput env use_shift) in
    let t := trace (Linux.paste_via_uinput env use_shift) in
    (exists n, Linux.ioctl_requests t =
                 firstn n (Linux.setup_requests ++ [Linux.UI_DEV_DESTROY])) /\
    (forall request,
       In request (Linux.failed_ioctls t) ->
       Linux.setup_request request = true ->
       exists pre, Linux.ioctl_requests t = pre ++ [request]) /\
    (Linux.writes t <> [] ->
       Linux.ioctl_requests (before_synthesis Linux.step_of t)
         = Linux.setup_requests /\
       Linux.failed_ioctls (before_synthesis Linux.step_of t) = []) /\
    (In Linux.UI_DEV_DESTROY (Linux.ioctl_requests t) <-> r = 0).
Proof.
  intros env use_shift r t. subst r t.
  split; [|split; [|split]].
  - run_linux;
      first [ exists 0%nat; reflexivity | exists 1%nat; reflexivity
            | exists 2%nat; reflexivity | exists 3%nat; reflexivity
            | exists 4%nat; reflexivity | exists 5%nat; reflexivity
            | exists 6%nat; reflexivity | exists 7%nat; reflexivity ].
  - unfold Linux.failed_ioctls.
    run_linux; try congruence; intros request Hin Hs; simpl in Hin;
      repeat (destruct Hin as [<- | Hin];
              [ try discriminate Hs;
                match goal with
                | |- exists pre, ?l = _ =>
                    exists (removelast l); reflexivity
                end |]);
      destruct Hin.
  - unfold Linux.failed_ioctls.
    run_linux; try congruence; intros Hw;
      try (exfalso; apply Hw; reflexivity); split; reflexivity.
  - run_linux; (split; [intros H | intros H]);
      try discriminate H; try (simpl; tauto);
      exfalso; simpl in H; intuition discriminate.
Qed.

(** X11 on a machine that grants everything. *)
Lemma X11_uinput_setup_order_witness :
  let t := trace (Linux.paste_via_uinput Linux.desktop false) in
  Linux.ioctl_requests (before_synthesis Linux.step_of t)
    = Linux.setup_requests /\
  Linux.failed_ioctls (before_synthesis Linux.step_of t) = [].
Proof.
  intros t.
  refine (proj1 (proj2 (proj2
            (X11_uinput_setup_order Linux.desktop false))) _).
  vm_compute. discriminate.
Defined.

(** X12.  [paste_via_uinput] never writes a key that the device was not
    told about: the code of every key event is among the key bits whose
    registration succeeded earlier in the run.  It registers left Ctrl,
    left Shift and V and no other key, Shift also for the plain variant
    that never strikes it. *)
Theorem X12_uinput_keys_registered :
  forall (env : Linux.Env) (use_shift : bool),
    let t := trace (Linux.paste_via_uinput env use_shift) in
    (forall e, In e (Linux.key_events t) ->
       In (fst e) (Linux.registered_keys (before_synthesis Linux.step_of t))) /\
    (Linux.key_events t <> [] ->
       Linux.registered_keys t =
         [Linux.KEY_LEFTCTRL; Linux.KEY_LEFTSHIFT; Linux.KEY_V]) /\
    incl (Linux.registered_keys t)
         [Linux.KEY_LEFTCTRL; Linux.KEY_LEFTSHIFT; Linux.KEY_V].
Proof.
  intros env use_shift t. subst t.
  unfold Linux.registered_keys.
  split; [|split].
  - run_linux; try congruence; intros e He; simpl in He;
      repeat (destruct He as [<- | He]; [simpl; tauto|]);
      destruct He.
  - run_linux; try congruence; intros H;
      try (exfalso; apply H; reflexivity); reflexivity.
  - run_linux; try congruence; intros k Hk; simpl in Hk |- *; tauto.
Qed.

(** X12 on a machine that grants everything. *)
Lemma X12_uinput_keys_registered_witness :
  Linux.registered_keys (trace (Linux.paste_via_uinput Linux.desktop false))
    = [Linux.KEY_LEFTCTRL; Linux.KEY_LEFTSHIFT; Linux.KEY_V].
Proof.
  refine (proj1 (proj2 (X12_uinput_keys_registered Linux.desktop false)) _).
  vm_compute. discriminate.
Defined.

End MoreVirtualDevice.
(** ** More on the Windows helper *)

Section MoreWindows.

Import Trace KeySequence ControlFlow.

Ltac win_facts :=
  repeat match goal with
  | H : negb _ = true |- _ => apply negb_true_iff in H
  | H : negb _ = false |- _ => apply negb_false_iff in H
  | H : (_ =? _) = true |- _ => apply Z.eqb_eq in H
  | H : (_ =? _) = false |- _ => apply Z.eqb_neq in H
  end.

Ltac run_win :=
  autounfold with windows_prog;
  cbn -[Windows.IsTerminalClass substring];
  repeat (case_step; cbn -[Windows.IsTerminalClass substring]).

(** X13.  [SendPasteNormal] and [SendPasteTerminal] each submit one array
    in one [SendInput] call and return 0 exactly when the number of
    events the system accepted is the length of that array; any other
    count, smaller or larger, gives 1. *)
Theorem X13_SendPaste_all_or_error :
  forall (env : Windows.Env),
    (exists inputs,
       Windows.sent_inputs (trace (Windows.SendPasteNormal env)) = [inputs] /\
       (result (Windows.SendPasteNormal env) = 0 <->
          Windows.ans_SendInput env inputs = Z.of_nat (List.length inputs)) /\
       (result (Windows.SendPasteNormal env) = 1 <->
          Windows.ans_SendInput env inputs <> Z.of_nat (List.length inputs))) /\
    (exists inputs,
       Windows.sent_inputs (trace (Windows.SendPasteTerminal env)) = [inputs] /\
       (result (Windows.SendPasteTerminal env) = 0 <->
          Windows.ans_SendInput env inputs = Z.of_nat (List.length inputs)) /\
       (result (Windows.SendPasteTerminal env) = 1 <->
          Windows.ans_SendInput env inputs <> Z.of_nat (List.length inputs))).
Proof.
  intros env. split; eexists; (split; [reflexivity|]);
    run_win; win_facts; cbn in *; split; split; intros H;
    try reflexivity; try discriminate H; try lia; try congruence.
Qed.

(** X14.  The exit status of the Windows helper.  It is 2 exactly when
    there is no foreground window, and 0 exactly when there is one, its
    class name is not empty, and every [SendInput] call of the run (none
    in detect-only mode) accepted the whole array.  Unlike on Linux,
    every run that fails writes a diagnostic to the error stream and
    nothing to standard output, and every run that succeeds writes to
    standard output and nothing to the error stream. *)
Theorem X14_windows_exit_status :
  forall (env : Windows.Env) (argv : list string),
    let r := result (Windows.main env argv) in
    let t := trace (Windows.main env argv) in
    (r = 2 <-> Windows.ans_GetForegroundWindow env = 0) /\
    (r = 0 <->
       Windows.ans_GetForegroundWindow env <> 0 /\
       Windows.foreground_class env <> "" /\
       (forall inputs sent, In (Windows.Ev.SendInput inputs sent) t ->
                            sent = Z.of_nat (List.length inputs))) /\
    (r = 0 \/ r = 1 \/ r = 2) /\
    (r = 0 -> Windows.stdout_text t <> "" /\ Windows.stderr_text t = "") /\
    (r <> 0 -> Windows.stdout_text t = "" /\ Windows.stderr_text t <> "").
Proof.
  intros env argv r t. subst r t. unfold Windows.main.
  generalize (Windows.parse_args (tl argv) false) as detectOnly.
  intros detectOnly.
  unfold Windows.foreground_class.
  autounfold with windows_prog.
  cbn -[Windows.IsTerminalClass substring].
  set (name := substring 0 _ _) in *. clearbody name.
  destruct (Windows.ans_GetForegroundWindow env =? 0) eqn:Hw;
    cbn -[Windows.IsTerminalClass substring]; win_facts.
  { repeat match goal with |- _ /\ _ => split end;
      try (split; intros H); try (intros H);
      try reflexivity; try discriminate; try lia; try tauto;
      try (split; [reflexivity | discriminate]). }
  assert (Hlen : (Z.of_nat (String.length name) =? 0) = true <-> name = "").
  { destruct name; cbn; split; congruence. }
  destruct (Z.of_nat (String.length name) =? 0) eqn:Hn;
    cbn -[Windows.IsTerminalClass substring].
  { assert (Hname : name = "") by now apply Hlen.
    repeat match goal with |- _ /\ _ => split end;
      try (split; intros H); try (intros H);
      try reflexivity; try discriminate; try lia; try tauto;
      try (split; [reflexivity | discriminate]). }
  assert (Hname : name <> "").
  { intros E. apply Hlen in E. discriminate E. }
  clear Hlen Hn.
  destruct detectOnly; [|destruct (Windows.IsTerminalClass name)];
    cbn -[Windows.IsTerminalClass substring];
    repeat (case_step; cbn -[Windows.IsTerminalClass substring]);
    win_facts;
    repeat match goal with |- _ /\ _ => split end;
    try (split; intros H); try (intros H);
    try reflexivity; try discriminate; try lia; try tauto;
    try (split; [discriminate | reflexivity]);
    try (split; [reflexivity | discriminate]);
    try (now left); try (right; now left).
  all: try (repeat split; try assumption;
            intros inputs sent Hin; simpl in Hin;
            repeat (destruct Hin as [Hin | Hin];
                    [try discriminate Hin;
                     injection Hin as <- <-; cbn; congruence |]);
            destruct Hin).
  all: destruct H as [_ [_ H]]; exfalso;
    match goal with
    | Hne : Windows.ans_SendInput ?e ?inputs <> _ |- _ =>
        apply Hne; apply (H inputs (Windows.ans_SendInput e inputs));
        simpl; tauto
    end.
Qed.

(** X14 for a terminal window in the foreground. *)
Lemma X14_windows_exit_status_witness :
  let env := Windows.sample_env "mintty" in
  let argv := ["windows-fast-paste.exe"] in
  Windows.stdout_text (trace (Windows.main env argv)) <> "" /\
  Windows.stderr_text (trace (Windows.main env argv)) = "".
Proof.
  intros env argv.
  refine (proj1 (proj2 (proj2 (proj2 (X14_windows_exit_status env argv)))) _).
  reflexivity.
Defined.

(** X15.  A paste run of the Windows helper (no [--detect-only]) that
    returns 0 has slept 5 ms before its single [SendInput] call and 20 ms
    after it, and reports [PASTE_OK], the class name, and [ctrl+shift+v]
    or [ctrl+v] according to [IsTerminalClass].  A detect-only run never
    sleeps, and no run sleeps more than 25 ms. *)
Theorem X15_windows_paste_report :
  forall (env : Windows.Env) (argv : list string),
    let name := Windows.foreground_class env in
    let r := result (Windows.main env argv) in
    let t := trace (Windows.main env argv) in
    (Windows.parse_args (tl argv) false = false -> r = 0 ->
       Windows.stdout_text t =
         ("PASTE_OK " ++ name ++ " " ++
          (if Windows.IsTerminalClass name
           then "ctrl+shift+v" else "ctrl+v") ++ nl)%string /\
       Windows.slept t = 25 /\
       (exists inputs,
          t = [Windows.Ev.GetForegroundWindow
                 (Windows.ans_GetForegroundWindow env);
               Windows.Ev.GetClassNameA
                 (Windows.ans_GetForegroundWindow env) 256 name
                 (Z.of_nat (String.length name));
               Windows.Ev.Sleep 5;
               Windows.Ev.SendInput inputs (Z.of_nat (List.length inputs));
               Windows.Ev.Sleep 20;
               Windows.Ev.printf ("PASTE_OK %s %s" ++ nl)%string
                 [Stdio.ArgStr name;
                  Stdio.ArgStr (if Windows.IsTerminalClass name
                                then "ctrl+shift+v" else "ctrl+v")];
               Windows.Ev.fflush_stdout])) /\
    (Windows.parse_args (tl argv) false = true -> Windows.slept t = 0) /\
    0 <= Windows.slept t <= 25.
Proof.
  intros env argv name r t. subst name r t. unfold Windows.main.
  generalize (Windows.parse_args (tl argv) false) as detectOnly.
  intros detectOnly.
  unfold Windows.foreground_class.
  autounfold with windows_prog.
  cbn -[Windows.IsTerminalClass substring].
  set (name := substring 0 _ _) in *. clearbody name.
  destruct detectOnly; [|destruct (Windows.IsTerminalClass name)];
    cbn -[Windows.IsTerminalClass substring];
    repeat (case_step; cbn -[Windows.IsTerminalClass substring]);
    win_facts;
    (split; [intros Hd Hr | split; [intros Hd | cbn; lia]]);
    try discriminate; try reflexivity.
  all: split; [cbn; now rewrite !append_nil_r|].
  all: split; [reflexivity|].
  all: match goal with
       | E : Windows.ans_SendInput _ ?inputs = _ |- _ =>
           exists inputs; cbn; rewrite E; reflexivity
       end.
Qed.

(** X15 for a terminal window in the foreground. *)
Lemma X15_windows_paste_report_witness :
  let env := Windows.sample_env "mintty" in
  let argv := ["windows-fast-paste.exe"] in
  Windows.slept (trace (Windows.main env argv)) = 25.
Proof.
  intros env argv.
  refine (proj1 (proj2 (proj1 (X15_windows_paste_report env argv) _ _)));
    reflexivity.
Defined.

End MoreWindows.
